(** * StockAnalysisApp (financial_agent.py): credential gate and query builder

    A shallow embedding of the Streamlit application [StockAnalysisApp]:
    - [st.session_state] is a dictionary from attribute names to Python
      values, modelled as a [gmap string value];
    - the methods of the class are computations in a small state-and-
      exception monad [M]: they thread the session dictionary and a log of
      the observable actions (calls to the remote assistant, messages shown
      to the user), and they may raise a Python exception;
    - the [phi] assistant (constructor and [run]) is an external
      collaborator, an interface whose answers may depend on everything
      that happened before;
    - the values returned by the Streamlit widgets during one execution of
      the script are the fields of a record [Inputs]. *)

From Stdlib Require Import Ascii String.
From stdpp Require Import base option list gmap strings.

(** ** Python strings *)

(** [sep.join(xs)] *)
Fixpoint join (sep : string) (xs : list string) : string :=
  match xs with
  | [] => ""
  | [x] => x
  | x :: rest => x +:+ sep +:+ join sep rest
  end.

(** [bool(s)] for a [str]: the empty string is the only falsy one. *)
Definition str_truthy (s : string) : bool :=
  match s with
  | EmptyString => false
  | String _ _ => true
  end.

(** [needle in hay] for two [str]. *)
Fixpoint contains (needle hay : string) : bool :=
  String.prefix needle hay
  || match hay with
     | EmptyString => false
     | String _ hay' => contains needle hay'
     end.

(** [c.lower()] on one ASCII character, and [s.lower()]. *)
Definition lower_ascii (c : ascii) : ascii :=
  let n := Ascii.nat_of_ascii c in
  if (65 <=? n)%nat && (n <=? 90)%nat then Ascii.ascii_of_nat (n + 32) else c.

Fixpoint lower (s : string) : string :=
  match s with
  | EmptyString => EmptyString
  | String c s' => String (lower_ascii c) (lower s')
  end.

(** [str.isspace()] on one character: the ASCII whitespace characters. *)
Definition is_space (c : ascii) : bool :=
  let n := Ascii.nat_of_ascii c in
  (n =? 32)%nat || ((9 <=? n)%nat && (n <=? 13)%nat).

Fixpoint all_space (s : string) : bool :=
  match s with
  | EmptyString => true
  | String c s' => is_space c && all_space s'
  end.

(** ** Query builder *)

(** The options of the "Choose Analysis Type" select box, under the names the
    specification gives them. *)
Inductive AnalysisKind : Type :=
  | FullComparison
  | PriceAnalysis
  | Fundamentals
  | News.

(** The label of each kind, as listed in [st.selectbox] and used as a key
    of the [queries] dictionary. *)
Definition kind_label (k : AnalysisKind) : string :=
  match k with
  | FullComparison => "Full Comparison"
  | PriceAnalysis => "Price Analysis"
  | Fundamentals => "Fundamentals"
  | News => "News"
  end.

Definition analysis_types : list string :=
  ["Full Comparison"; "Price Analysis"; "Fundamentals"; "News"].

Definition metric_options : list string :=
  ["Price Trends"; "Analyst Recommendations"; "Company Info"; "Recent News"].

(** The dictionary literal of [generate_query]; every f-string is built
    before the lookup. *)
Definition queries (stock1 stock2 : string) : gmap string string :=
  <["News" :=
      "Compare recent news and market sentiment for " +:+ stock1
        +:+ " and " +:+ stock2 +:+ "."]>
  (<["Fundamentals" :=
      "Compare key fundamental metrics and financial health of " +:+ stock1
        +:+ " and " +:+ stock2 +:+ "."]>
  (<["Price Analysis" :=
      "Compare price performance and technical indicators for " +:+ stock1
        +:+ " and " +:+ stock2 +:+ "."]>
  (<["Full Comparison" :=
      "Provide a comprehensive comparison between " +:+ stock1
        +:+ " and " +:+ stock2
        +:+ " including price trends, fundamentals, and market sentiment."]>
  ∅))).

(** [queries.get(analysis_type, queries["Full Comparison"])]. The subscript
    [queries["Full Comparison"]] is a total lookup here: the key is in the
    literal, so the [KeyError] of Python cannot arise. *)
Definition generate_query (stock1 stock2 analysis_type : string) : string :=
  let qs := queries stock1 stock2 in
  default (qs !!! "Full Comparison") (qs !! analysis_type).

(** The f-string of [handle_single_stock]:
    [f"Analyze {stock} focusing on {', '.join(metrics)}"]. *)
Definition single_stock_query (stock : string) (metrics : list string) : string :=
  "Analyze " +:+ stock +:+ " focusing on " +:+ join ", " metrics.

(** The specification's wording of the same rendering: the labels are
    written out one after the other, from the first selected to the last,
    with a comma and a space before every label but the first. *)
Definition comma_joined_in_order (metrics : list string) : string :=
  match metrics with
  | [] => ""
  | first :: others => fold_left (fun acc m => acc +:+ ", " +:+ m) others first
  end.

(** ** Python values, exceptions and observable actions *)

(** The arguments of the [Assistant(...)] call of [verify_api_key]: the
    model and key of [OpenAIChat], the four flags of [YFinanceTools] and
    [show_tool_calls]. *)
Record AssistantConfig : Type := {
  llm_model : string;
  llm_api_key : string;
  stock_price : bool;
  analyst_recommendations : bool;
  company_info : bool;
  company_news : bool;
  show_tool_calls : bool
}.

Section Model.

(** [Handle]: the assistant objects of the collaborator. [Failure]: the
    exceptions it raises, all of them instances of [Exception]. *)
Context {Handle Failure : Type}.

(** What [st.session_state] stores under its two attributes. *)
Inductive value : Type :=
  | VNone
  | VBool (b : bool)
  | VAssistant (h : Handle).

(** [bool(v)] *)
Definition truthy (v : value) : bool :=
  match v with
  | VNone => false
  | VBool b => b
  | VAssistant _ => true
  end.

(** [type(v).__name__] *)
Definition type_name (v : value) : string :=
  match v with
  | VNone => "NoneType"
  | VBool _ => "bool"
  | VAssistant _ => "Assistant"
  end.

Inductive exn : Type :=
  | AttributeError (obj attr : string)
  | RemoteFailure (f : Failure).

(** What the log records, in the order in which it happens: the calls to
    the collaborator, and what [st.success], [st.error], [st.warning],
    [st.info], [st.sidebar.success] and [st.markdown] show. The titles, the
    caption, the form and its fields, the tabs, the expander and the
    spinners are layout around them and are not recorded: the log says
    nothing about them. *)
Inductive event : Type :=
  | EvAssistantNew (cfg : AssistantConfig)
  | EvAssistantRun (h : Handle) (query : string) (stream : bool)
  | EvSuccess (msg : string)
  | EvError (msg : string)
  | EvWarning (msg : string)
  | EvInfo (msg : string)
  | EvSidebarSuccess (msg : string)
  | EvMarkdown (body : string).

(** The remote assistant: building one and running a prompt on one either
    raises or returns. Both see the history, so that the same call may
    succeed at one time and fail at another. *)
Class Collaborator : Type := {
  Assistant_new : list event -> AssistantConfig -> Failure + Handle;
  Assistant_run : list event -> Handle -> string -> bool -> Failure + string
}.

Context {remote : Collaborator}.

Record world : Type := {
  session_state : gmap string value;
  log : list event
}.

Inductive res (A : Type) : Type :=
  | Ok (a : A)
  | Raise (e : exn).

Definition M (A : Type) : Type := world -> res A * world.

Definition ret {A} (a : A) : M A := fun w => (Ok A a, w).

Definition bind {A B} (m : M A) (k : A -> M B) : M B :=
  fun w =>
    match m w with
    | (Ok _ a, w') => k a w'
    | (Raise _ e, w') => (Raise B e, w')
    end.

Definition raise {A} (e : exn) : M A := fun w => (Raise A e, w).

(** [try: body except Exception as e: handler]: what the body did to the
    session before it raised stays done. *)
Definition try_except {A} (body : M A) (handler : exn -> M A) : M A :=
  fun w =>
    match body w with
    | (Ok _ a, w') => (Ok A a, w')
    | (Raise _ e, w') => handler e w'
    end.

#[global] Instance M_ret : MRet M := @ret.
#[global] Instance M_bind : MBind M := fun A B k m => bind m k.

Definition emit (e : event) : M unit :=
  fun w => (Ok unit tt, {| session_state := session_state w; log := log w ++ [e] |}).

(** ['name' in st.session_state] *)
Definition has_attr (name : string) : M bool :=
  fun w => (Ok bool (bool_decide (is_Some (session_state w !! name))), w).

(** [st.session_state.name]: an [AttributeError] when nothing is stored
    under the name. *)
Definition get_attr (name : string) : M value :=
  fun w =>
    match session_state w !! name with
    | Some v => (Ok value v, w)
    | None => (Raise value (AttributeError "session_state" name), w)
    end.

(** [st.session_state.name = v] *)
Definition set_attr (name : string) (v : value) : M unit :=
  fun w =>
    (Ok unit tt, {| session_state := <[name := v]> (session_state w); log := log w |}).

(** [Assistant(llm=OpenAIChat(...), tools=[YFinanceTools(...)], ...)] *)
Definition new_Assistant (cfg : AssistantConfig) : M Handle :=
  fun w =>
    let w' := {| session_state := session_state w;
                 log := log w ++ [EvAssistantNew cfg] |} in
    match Assistant_new (log w) cfg with
    | inl f => (Raise Handle (RemoteFailure f), w')
    | inr h => (Ok Handle h, w')
    end.

(** [v.run(query, stream=stream)]: only an assistant has the method; on
    [None] the attribute lookup fails before anything is called. *)
Definition call_run (v : value) (query : string) (stream : bool) : M string :=
  match v with
  | VAssistant h =>
      fun w =>
        let w' := {| session_state := session_state w;
                     log := log w ++ [EvAssistantRun h query stream] |} in
        match Assistant_run (log w) h query stream with
        | inl f => (Raise string (RemoteFailure f), w')
        | inr answer => (Ok string answer, w')
        end
  | _ => raise (AttributeError (type_name v) "run")
  end.

(** ** The widgets of one execution of the script *)

Record Inputs : Type := {
  in_api_key : string;          (* st.text_input("OpenAI API Key") *)
  in_submitted : bool;          (* st.form_submit_button("Verify API Key") *)
  in_stock1 : string;           (* st.text_input("First Stock Symbol") *)
  in_stock2 : string;           (* st.text_input("Second Stock Symbol") *)
  in_analysis_type : string;    (* st.selectbox("Choose Analysis Type") *)
  in_generate : bool;           (* st.button("Generate Analysis") *)
  in_stock : string;            (* st.text_input("Enter Stock Symbol") *)
  in_metrics : list string;     (* st.multiselect("Select Metrics") *)
  in_analyze : bool             (* st.button("Analyze") *)
}.

(** ** The methods of StockAnalysisApp *)

(** [__init__]; [setup_page] only configures the page. *)
Definition StockAnalysisApp_init : M unit :=
  present ← has_attr "api_key_verified";
  (if negb present then set_attr "api_key_verified" (VBool false) else ret tt);;
  present ← has_attr "assistant";
  (if negb present then set_attr "assistant" VNone else ret tt).

Definition assistant_config (api_key : string) : AssistantConfig :=
  {| llm_model := "gpt-4o";
     llm_api_key := api_key;
     stock_price := true;
     analyst_recommendations := true;
     company_info := true;
     company_news := true;
     show_tool_calls := true |}.

Definition verify_api_key (api_key : string) : M bool :=
  try_except
    (assistant ← new_Assistant (assistant_config api_key);
     set_attr "assistant" (VAssistant assistant);;
     set_attr "api_key_verified" (VBool true);;
     ret true)
    (fun _ =>
     set_attr "api_key_verified" (VBool false);;
     ret false).

Definition show_sidebar_form (inp : Inputs) : M unit :=
  (if in_submitted inp then
     if str_truthy (in_api_key inp) then
       ok ← verify_api_key (in_api_key inp);
       if ok : bool then emit (EvSuccess "API key verified successfully!")
       else emit (EvError "Invalid API key. Please check and try again.")
     else emit (EvError "Please enter an API key.")
   else ret tt);;
  verified ← get_attr "api_key_verified";
  (if truthy verified then emit (EvSidebarSuccess "✅ API Key Status: Verified")
   else ret tt).

Definition handle_stock_comparison (inp : Inputs) : M unit :=
  if str_truthy (in_stock1 inp) && str_truthy (in_stock2 inp) then
    if in_generate inp then
      let query :=
        generate_query (in_stock1 inp) (in_stock2 inp) (in_analysis_type inp) in
      assistant ← get_attr "assistant";
      response ← call_run assistant query false;
      emit (EvMarkdown response)
    else ret tt
  else ret tt.

Definition handle_single_stock (inp : Inputs) : M unit :=
  if str_truthy (in_stock inp) then
    if in_analyze inp then
      let query := single_stock_query (in_stock inp) (in_metrics inp) in
      assistant ← get_attr "assistant";
      response ← call_run assistant query false;
      emit (EvMarkdown response)
    else ret tt
  else ret tt.

Definition show_main_content (inp : Inputs) : M unit :=
  handle_stock_comparison inp;;
  handle_single_stock inp;;
  emit (EvInfo "Market Insights feature coming soon!").

Definition run (inp : Inputs) : M unit :=
  show_sidebar_form inp;;
  verified ← get_attr "api_key_verified";
  if truthy verified then show_main_content inp
  else emit (EvWarning "Please enter your OpenAI API key in the sidebar to begin.").

(** The script: [app = StockAnalysisApp(); app.run()]. Streamlit executes it
    from the top at every interaction, on the session kept from the
    previous execution. *)
Definition main (inp : Inputs) : M unit :=
  StockAnalysisApp_init;;
  run inp.

End Model.

Arguments value : clear implicits.
Arguments exn : clear implicits.
Arguments event : clear implicits.
Arguments Collaborator : clear implicits.
Arguments world : clear implicits.
Arguments res : clear implicits.
Arguments M : clear implicits.
Arguments Ok {Failure A} a.
Arguments Raise {Failure A} e.

(** ** Session predicates *)

Section Predicates.

Context {Handle Failure : Type} {remote : Collaborator Handle Failure}.

Implicit Types (w : world Handle) (s : gmap string (value Handle)).

(** [st.session_state.api_key_verified] is [True]. *)
Definition is_verified (s : gmap string (value Handle)) : Prop :=
  s !! "api_key_verified" = Some (VBool true).

(** [st.session_state.assistant] is an assistant object, not [None]. *)
Definition holds_handle (s : gmap string (value Handle)) : Prop :=
  ∃ h, s !! "assistant" = Some (VAssistant h).

Definition handle_invariant (s : gmap string (value Handle)) : Prop :=
  is_verified s → holds_handle s.

(** After [__init__] both attributes exist; the flag is a [bool] and the
    other one is [None] or an assistant. *)
Definition initialised (s : gmap string (value Handle)) : Prop :=
  (∃ b, s !! "api_key_verified" = Some (VBool b))
  ∧ (s !! "assistant" = Some VNone ∨ holds_handle s).

(** The operations that write the session. *)
Inductive session_op : Type :=
  | OpInit
  | OpVerify (api_key : string).

Definition exec_op (op : session_op) (w : world Handle) : world Handle :=
  match op with
  | OpInit => (StockAnalysisApp_init (Failure := Failure) w).2
  | OpVerify api_key => (verify_api_key api_key w).2
  end.

(** A session starts empty. *)
Definition fresh : world Handle := {| session_state := ∅; log := [] |}.

(** The states of the application: those left by a sequence of executions
    of the script, each with the widget values of its interaction. *)
Inductive reachable : world Handle → Prop :=
  | reachable_fresh : reachable fresh
  | reachable_rerun inp w : reachable w → reachable (main inp w).2.

(** The runs of the remote assistant recorded in a log. *)
Definition is_dispatch (e : event Handle) : bool :=
  match e with
  | EvAssistantRun _ _ _ => true
  | _ => false
  end.

Definition is_construction (e : event Handle) : bool :=
  match e with
  | EvAssistantNew _ => true
  | _ => false
  end.

Definition is_remote_call (e : event Handle) : bool :=
  is_dispatch e || is_construction e.

(** The button of a tab has been pressed with its symbols filled in. *)
Definition comparison_requested (inp : Inputs) : bool :=
  str_truthy (in_stock1 inp) && str_truthy (in_stock2 inp) && in_generate inp.

Definition single_requested (inp : Inputs) : bool :=
  str_truthy (in_stock inp) && in_analyze inp.

(** What a tab may do on the session [s]: show messages, and run the
    assistant stored in [s]. *)
Definition tab_event s (e : event Handle) : Prop :=
  match e with
  | EvAssistantRun h _ _ => s !! "assistant" = Some (VAssistant h)
  | EvAssistantNew _ => False
  | _ => True
  end.

(** [runs_on s m post]: started on the session [s], the computation [m]
    leaves the session as it is, appends only events of [tab_event s] to
    the log, and a value it returns satisfies [post]. *)
Definition runs_on s {A} (m : M Handle Failure A) (post : A → Prop) : Prop :=
  ∀ w, session_state w = s →
    ∃ new, session_state (m w).2 = s
      ∧ log (m w).2 = log w ++ new
      ∧ Forall (tab_event s) new
      ∧ ∀ a, (m w).1 = Ok a → post a.

(** What one execution of [run] guarantees about the events [new] it adds,
    its result [r] and the session [s] it leaves. *)
Definition gated s (r : res Failure unit) (new : list (event Handle)) : Prop :=
  (∀ h query stream, EvAssistantRun h query stream ∈ new →
     is_verified s ∧ s !! "assistant" = Some (VAssistant h))
  ∧ (¬ is_verified s →
     r = Ok tt
     ∧ Forall (λ e, is_dispatch e = false) new
     ∧ last new = Some (EvWarning
                     "Please enter your OpenAI API key in the sidebar to begin.")).

(** The answers of the assistant rendered on the page. *)
Definition is_answer (e : event Handle) : bool :=
  match e with
  | EvMarkdown _ => true
  | _ => false
  end.

(** The part of a log that tells what was asked of the collaborator and
    which answers were rendered. *)
Definition calls_and_answers (l : list (event Handle)) : list (event Handle) :=
  List.filter (λ e, is_remote_call e || is_answer e) l.

(** [run_failures_escape m w]: in the execution of [m] from [w], a run of
    the assistant that the collaborator answers with a failure is the last
    thing recorded, and the failure is what [m] raises. *)
Definition run_failures_escape {A} (m : M Handle Failure A) w : Prop :=
  ∃ new,
    log (m w).2 = log w ++ new
    ∧ ∀ pre h query stream post f,
        new = pre ++ EvAssistantRun h query stream :: post →
        Assistant_run (log w ++ pre) h query stream = inl f →
        (m w).1 = Raise (RemoteFailure f) ∧ post = [].

End Predicates.

(** ** A concrete collaborator

    Assistants are numbered by the length of the history at their
    construction. Keys starting with "sk-" are accepted; a prompt that
    mentions "FAIL" makes [run] raise. *)
Definition demo_remote : Collaborator nat string :=
  {| Assistant_new hist cfg :=
       if String.prefix "sk-" (llm_api_key cfg) then inr (length hist)
       else inl "invalid api key";
     Assistant_run hist h query stream :=
       if contains "FAIL" query then inl "remote failure"
       else inr ("answer: " +:+ query) |}.

Definition no_input : Inputs :=
  {| in_api_key := ""; in_submitted := false;
     in_stock1 := ""; in_stock2 := ""; in_analysis_type := "Full Comparison";
     in_generate := false;
     in_stock := ""; in_metrics := []; in_analyze := false |}.

Definition submit_key (api_key : string) : Inputs :=
  {| in_api_key := api_key; in_submitted := true;
     in_stock1 := ""; in_stock2 := ""; in_analysis_type := "Full Comparison";
     in_generate := false;
     in_stock := ""; in_metrics := []; in_analyze := false |}.

Definition analyze_stock (stock : string) (metrics : list string) : Inputs :=
  {| in_api_key := ""; in_submitted := false;
     in_stock1 := ""; in_stock2 := ""; in_analysis_type := "Full Comparison";
     in_generate := false;
     in_stock := stock; in_metrics := metrics; in_analyze := true |}.

Definition compare_stocks (stock1 stock2 analysis_type : string) : Inputs :=
  {| in_api_key := ""; in_submitted := false;
     in_stock1 := stock1; in_stock2 := stock2; in_analysis_type := analysis_type;
     in_generate := true;
     in_stock := ""; in_metrics := []; in_analyze := false |}.

Definition offline_remote : Collaborator nat string :=
  {| Assistant_new hist cfg := inr (length hist);
     Assistant_run hist h query stream := inl "connection refused" |}.

(** The session of a visitor who has submitted the key "sk-demo". *)
Definition verified_world : world nat :=
  (main (remote := demo_remote) (submit_key "sk-demo") fresh).2.

(** A session whose flag is set while [assistant] is still [None]. *)
Definition unbound_world : world nat :=
  {| session_state := <["assistant" := VNone]> (<["api_key_verified" := VBool true]> ∅);
     log := [] |}.

Definition bound_world : world nat :=
  {| session_state :=
       <["assistant" := VAssistant 7]> (<["api_key_verified" := VBool true]> ∅);
     log := [] |}.

Definition both_tabs : Inputs :=
  {| in_api_key := ""; in_submitted := true;
     in_stock1 := "AAPL"; in_stock2 := "MSFT"; in_analysis_type := "News";
     in_generate := true;
     in_stock := "GOOGL"; in_metrics := []; in_analyze := true |}.

(** * Properties *)

(** ** The model on concrete inputs *)

Example generate_query_full_comparison :
  generate_query "AAPL" "MSFT" "Full Comparison"
  = "Provide a comprehensive comparison between AAPL and MSFT including price trends, fundamentals, and market sentiment.".
Proof. vm_compute. reflexivity. Qed.

Example generate_query_price_analysis :
  generate_query "AAPL" "MSFT" "Price Analysis"
  = "Compare price performance and technical indicators for AAPL and MSFT.".
Proof. vm_compute. reflexivity. Qed.

Example generate_query_fundamentals :
  generate_query "AAPL" "MSFT" "Fundamentals"
  = "Compare key fundamental metrics and financial health of AAPL and MSFT.".
Proof. vm_compute. reflexivity. Qed.

Example generate_query_news :
  generate_query "AAPL" "MSFT" "News"
  = "Compare recent news and market sentiment for AAPL and MSFT.".
Proof. vm_compute. reflexivity. Qed.

Example single_stock_query_all_metrics :
  single_stock_query "GOOGL" metric_options
  = "Analyze GOOGL focusing on Price Trends, Analyst Recommendations, Company Info, Recent News".
Proof. vm_compute. reflexivity. Qed.

(** The first visit: the session is set up and the warning is shown. *)
Example first_visit :
  main (remote := demo_remote) no_input fresh
  = (Ok tt,
     {| session_state :=
          <["assistant" := VNone]> (<["api_key_verified" := VBool false]> ∅);
        log := [EvWarning "Please enter your OpenAI API key in the sidebar to begin."] |}).
Proof. vm_compute. reflexivity. Qed.

(** A key is accepted: the assistant is stored and the tabs are shown. *)
Example key_accepted :
  main (remote := demo_remote) (submit_key "sk-demo") fresh
  = (Ok tt,
     {| session_state :=
          <["api_key_verified" := VBool true]>
            (<["assistant" := VAssistant 0]>
               (<["assistant" := VNone]> (<["api_key_verified" := VBool false]> ∅)));
        log := [EvAssistantNew (assistant_config "sk-demo");
                EvSuccess "API key verified successfully!";
                EvSidebarSuccess "✅ API Key Status: Verified";
                EvInfo "Market Insights feature coming soon!"] |}).
Proof. vm_compute. reflexivity. Qed.

(** A comparison in the verified session: one run of the stored assistant,
    and its answer rendered. *)
Example comparison_in_verified_session :
  drop (length (log verified_world))
    (log (main (remote := demo_remote) (compare_stocks "AAPL" "MSFT" "News")
            verified_world).2)
  = [EvSidebarSuccess "✅ API Key Status: Verified";
     EvAssistantRun 0 "Compare recent news and market sentiment for AAPL and MSFT." false;
     EvMarkdown "answer: Compare recent news and market sentiment for AAPL and MSFT.";
     EvInfo "Market Insights feature coming soon!"].
Proof. vm_compute. reflexivity. Qed.

(** ** Query builder *)

Lemma append_String (ch : ascii) (a b : string) :
  String ch a +:+ b = String ch (a +:+ b).
Proof. reflexivity. Qed.

Lemma append_assoc (a b c : string) : (a +:+ b) +:+ c = a +:+ (b +:+ c).
Proof.
  induction a as [|ch a IH]; [reflexivity|].
  now rewrite !append_String, IH.
Qed.

Lemma queries_lookup_other (stock1 stock2 analysis_type : string) :
  analysis_type ∉ analysis_types → queries stock1 stock2 !! analysis_type = None.
Proof.
  unfold analysis_types. rewrite !not_elem_of_cons.
  intros (Hfull & Hprice & Hfund & Hnews & _).
  unfold queries. rewrite !lookup_insert_ne by congruence. apply lookup_empty.
Qed.

Lemma queries_lookup_full (stock1 stock2 : string) :
  queries stock1 stock2 !! "Full Comparison"
  = Some ("Provide a comprehensive comparison between " +:+ stock1
            +:+ " and " +:+ stock2
            +:+ " including price trends, fundamentals, and market sentiment.").
Proof.
  unfold queries. rewrite !lookup_insert_ne by discriminate.
  apply lookup_insert_eq.
Qed.

(** Every label of the select box has a template of its own. *)
Lemma generate_query_known (stock1 stock2 : string) (k : AnalysisKind) :
  queries stock1 stock2 !! kind_label k
  = Some (generate_query stock1 stock2 (kind_label k)).
Proof.
  unfold generate_query. cbv zeta.
  destruct k; unfold queries; simpl kind_label;
    rewrite ?(lookup_insert_ne _ "News") by discriminate;
    rewrite ?(lookup_insert_ne _ "Fundamentals") by discriminate;
    rewrite ?(lookup_insert_ne _ "Price Analysis") by discriminate;
    rewrite lookup_insert_eq; reflexivity.
Qed.

(** C6: for every pair of symbols and every analysis type that is not one
    of the four labels of the select box, [generate_query] returns the same
    string as for "Full Comparison". *)
Theorem generate_query_fallback (stock1 stock2 analysis_type : string) :
  analysis_type ∉ analysis_types →
  generate_query stock1 stock2 analysis_type
  = generate_query stock1 stock2 (kind_label FullComparison).
Proof.
  intros Hother. unfold generate_query. cbv zeta.
  rewrite (queries_lookup_other _ _ _ Hother).
  simpl kind_label. rewrite queries_lookup_full. simpl default.
  unfold lookup_total, map_lookup_total. now rewrite queries_lookup_full.
Qed.

Lemma generate_query_fallback_witness :
("Technical" ∉ analysis_types)
  ∧ generate_query "TSLA" "NVDA" "Technical"
    = generate_query "TSLA" "NVDA" (kind_label FullComparison).
Proof.
  assert (Hother : "Technical" ∉ analysis_types).
  { unfold analysis_types. rewrite !not_elem_of_cons.
    repeat split; try discriminate. apply not_elem_of_nil. }
  split; [exact Hother | exact (generate_query_fallback "TSLA" "NVDA" "Technical" Hother)].
Defined.

Lemma fold_left_append_prefix (sep p : string) (rest : list string) (a : string) :
  fold_left (fun acc m => acc +:+ sep +:+ m) rest (p +:+ a)
  = p +:+ fold_left (fun acc m => acc +:+ sep +:+ m) rest a.
Proof.
  revert a. induction rest as [|m rest IH]; intros a; cbn [fold_left]; [reflexivity|].
  rewrite append_assoc. apply IH.
Qed.

(** Python's [join] goes through the labels from left to right. *)
Lemma join_comma_in_order (metrics : list string) :
  join ", " metrics = comma_joined_in_order metrics.
Proof.
  destruct metrics as [|first others]; [reflexivity|].
  unfold comma_joined_in_order. revert first.
  induction others as [|m others IH]; intros first; [reflexivity|].
  change (join ", " (first :: m :: others))
    with (first +:+ ", " +:+ join ", " (m :: others)).
  rewrite IH. cbn [fold_left].
  rewrite (fold_left_append_prefix ", " first others (", " +:+ m)).
  now rewrite (fold_left_append_prefix ", " ", " others m).
Qed.

(** A label selected after the others is written after them. *)
Lemma join_snoc (sep : string) (xs : list string) (x : string) :
  xs ≠ [] → join sep (xs ++ [x]) = join sep xs +:+ sep +:+ x.
Proof.
  induction xs as [|y ys IH]; intros Hne; [congruence|].
  destruct ys as [|z ys]; [reflexivity|].
  change (join sep ((y :: z :: ys) ++ [x]))
    with (y +:+ sep +:+ join sep ((z :: ys) ++ [x])).
  rewrite IH by discriminate.
  change (join sep (y :: z :: ys)) with (y +:+ sep +:+ join sep (z :: ys)).
  now rewrite !append_assoc.
Qed.

(** C7: the prompt of the single stock tab for "GOOGL" with the metrics
    "Price Trends" and "Recent News" is "Analyze GOOGL focusing on Price
    Trends, Recent News"; for every symbol and every list of metric labels
    it is the symbol followed by the labels, comma-joined in the order in
    which the caller gives them, and another order gives another text. *)
Theorem single_stock_query_in_order :
  single_stock_query "GOOGL" ["Price Trends"; "Recent News"]
  = "Analyze GOOGL focusing on Price Trends, Recent News"
  ∧ (∀ stock metrics,
       single_stock_query stock metrics
       = "Analyze " +:+ stock +:+ " focusing on " +:+ comma_joined_in_order metrics)
  ∧ (∀ stock metrics m,
       metrics ≠ [] →
       single_stock_query stock (metrics ++ [m])
       = single_stock_query stock metrics +:+ ", " +:+ m)
  ∧ single_stock_query "GOOGL" ["Recent News"; "Price Trends"]
    = "Analyze GOOGL focusing on Recent News, Price Trends".
Proof.
  split; [reflexivity|]. split; [|split; [|reflexivity]].
  - intros stock metrics. unfold single_stock_query.
    now rewrite join_comma_in_order.
  - intros stock metrics m Hne. unfold single_stock_query.
    rewrite (join_snoc _ _ _ Hne). now rewrite !append_assoc.
Qed.

(** C8: the comparison prompt for "AAPL" and "MSFT" with the kind
    PriceAnalysis (the label "Price Analysis" of the select box) contains
    both symbols and does not contain the word "fundamental", in any
    letter case. *)
Theorem price_analysis_query_content :
  let query := generate_query "AAPL" "MSFT" (kind_label PriceAnalysis) in
  contains "AAPL" query = true
  ∧ contains "MSFT" query = true
  ∧ contains "fundamental" (lower query) = false.
Proof. vm_compute. repeat split. Qed.

(** C9: for every symbol, the prompt built from an empty list of metrics is
    "Analyze <symbol> focusing on ", with nothing after the last space. *)
Theorem single_stock_query_no_metrics (stock : string) :
  single_stock_query stock [] = "Analyze " +:+ stock +:+ " focusing on "
  ∧ ∀ metrics, single_stock_query stock metrics
               = single_stock_query stock [] +:+ join ", " metrics.
Proof.
  split.
  - reflexivity.
  - intros metrics. unfold single_stock_query. cbn [join].
    now rewrite !append_assoc.
Qed.

(** ** Credential verifier and session state *)

Section Verifier.

Context {Handle Failure : Type} {remote : Collaborator Handle Failure}.

Implicit Types (w : world Handle) (s : gmap string (value Handle)).

Lemma verify_api_key_success api_key w h :
  Assistant_new (log w) (assistant_config api_key) = inr h →
  verify_api_key api_key w
  = (Ok true,
     {| session_state :=
          <["api_key_verified" := VBool true]>
            (<["assistant" := VAssistant h]> (session_state w));
        log := log w ++ [EvAssistantNew (assistant_config api_key)] |}).
Proof.
  intros Hnew. unfold verify_api_key, try_except, mbind, M_bind, bind, new_Assistant.
  rewrite Hnew. reflexivity.
Qed.

Lemma verify_api_key_failure api_key w f :
  Assistant_new (log w) (assistant_config api_key) = inl f →
  verify_api_key api_key w
  = (Ok false,
     {| session_state := <["api_key_verified" := VBool false]> (session_state w);
        log := log w ++ [EvAssistantNew (assistant_config api_key)] |}).
Proof.
  intros Hnew. unfold verify_api_key, try_except, mbind, M_bind, bind, new_Assistant.
  rewrite Hnew. reflexivity.
Qed.

(** [verify_api_key] has no guard of its own: whatever the key, the first
    thing it does is to call the constructor. *)
Lemma verify_api_key_constructs api_key w :
  log (verify_api_key api_key w).2
  = log w ++ [EvAssistantNew (assistant_config api_key)].
Proof.
  destruct (Assistant_new (log w) (assistant_config api_key)) as [f|h] eqn:Hnew.
  - now rewrite (verify_api_key_failure _ _ _ Hnew).
  - now rewrite (verify_api_key_success _ _ _ Hnew).
Qed.

Lemma init_session w :
  StockAnalysisApp_init (Failure := Failure) w
  = (Ok tt,
     {| session_state :=
          let s1 := match session_state w !! "api_key_verified" with
                    | Some _ => session_state w
                    | None => <["api_key_verified" := VBool false]> (session_state w)
                    end in
          match s1 !! "assistant" with
          | Some _ => s1
          | None => <["assistant" := VNone]> s1
          end;
        log := log w |}).
Proof.
  unfold StockAnalysisApp_init, mbind, M_bind, bind, has_attr, set_attr, mret, M_ret, ret.
  destruct w as [s l]. cbn [session_state log].
  destruct (s !! "api_key_verified") as [v|] eqn:Hflag.
  - rewrite bool_decide_eq_true_2 by eauto. cbn [negb session_state log].
    destruct (s !! "assistant") as [a|] eqn:Hassistant.
    + rewrite bool_decide_eq_true_2 by eauto. reflexivity.
    + rewrite bool_decide_eq_false_2 by (intros [? ?]; congruence). reflexivity.
  - rewrite bool_decide_eq_false_2 by (intros [? ?]; congruence).
    cbn [negb session_state log].
    destruct (<["api_key_verified" := VBool false]> s !! "assistant") as [a|] eqn:Hassistant.
    + rewrite bool_decide_eq_true_2 by eauto. reflexivity.
    + rewrite bool_decide_eq_false_2 by (intros [? ?]; congruence). reflexivity.
Qed.

Lemma init_preserves_invariant w :
  handle_invariant (session_state w) →
  handle_invariant (session_state (StockAnalysisApp_init (Failure := Failure) w).2).
Proof.
  intros Hinv. rewrite init_session. cbn [snd session_state].
  unfold handle_invariant, is_verified, holds_handle in *.
  destruct (session_state w !! "api_key_verified") as [v|] eqn:Hflag.
  - destruct (session_state w !! "assistant") as [a|] eqn:Hassistant.
    + intros Hv. rewrite Hflag in Hv. rewrite Hassistant. now apply Hinv.
    + intros Hv. rewrite lookup_insert_ne in Hv by discriminate.
      rewrite Hflag in Hv. destruct (Hinv Hv) as [h Hh]. congruence.
  - intros Hv. exfalso.
    destruct (<["api_key_verified" := VBool false]> (session_state w) !! "assistant");
      rewrite ?(lookup_insert_ne _ "assistant") in Hv by discriminate;
      rewrite lookup_insert_eq in Hv; discriminate.
Qed.

Lemma verify_preserves_invariant api_key w :
  handle_invariant (session_state (verify_api_key api_key w).2).
Proof.
  unfold handle_invariant, is_verified, holds_handle.
  destruct (Assistant_new (log w) (assistant_config api_key)) as [f|h] eqn:Hnew.
  - rewrite (verify_api_key_failure _ _ _ Hnew). cbn [snd session_state].
    rewrite lookup_insert_eq. discriminate.
  - rewrite (verify_api_key_success _ _ _ Hnew). cbn [snd session_state].
    intros _. exists h.
    rewrite lookup_insert_ne by discriminate. apply lookup_insert_eq.
Qed.

(** C10: every operation that writes the session (the set-up of [__init__],
    a [verify_api_key] that succeeds, one that fails) preserves the
    invariant: whenever [api_key_verified] is [True], [assistant] holds a
    constructed assistant and not [None]. The empty session of a new
    visitor satisfies it. *)
Theorem verified_implies_handle (op : session_op) w :
  handle_invariant (session_state w) →
  handle_invariant (session_state (exec_op op w))
  ∧ handle_invariant (session_state (exec_op op fresh)).
Proof.
  assert (Hfresh : handle_invariant (session_state (fresh (Handle := Handle)))).
  { intros Hv. unfold is_verified, fresh in Hv. cbn [session_state] in Hv.
    rewrite lookup_empty in Hv. discriminate. }
  intros Hinv. destruct op as [|api_key]; cbn [exec_op].
  - split; apply init_preserves_invariant; assumption.
  - split; apply verify_preserves_invariant.
Qed.

(** C2, as the code has it: for every secret, if [verify_api_key] fails (the
    constructor raises), it returns [False], afterwards [api_key_verified]
    is [False], and what is stored under [assistant] is what was stored
    before the call. *)
Theorem failed_verify_keeps_handle api_key w f :
  Assistant_new (log w) (assistant_config api_key) = inl f →
  (verify_api_key api_key w).1 = Ok false
  ∧ session_state (verify_api_key api_key w).2 !! "api_key_verified"
    = Some (VBool false)
  ∧ session_state (verify_api_key api_key w).2 !! "assistant"
    = session_state w !! "assistant".
Proof.
  intros Hnew. rewrite (verify_api_key_failure _ _ _ Hnew).
  cbn [fst snd session_state]. split; [reflexivity|]. split.
  - apply lookup_insert_eq.
  - now apply lookup_insert_ne.
Qed.

End Verifier.

(** ** The sidebar form *)

Section Sidebar.

Context {Handle Failure : Type} {remote : Collaborator Handle Failure}.

Implicit Types (w : world Handle) (s : gmap string (value Handle)).

Lemma verify_preserves_initialised api_key w :
  initialised (session_state w) →
  initialised (session_state (verify_api_key api_key w).2).
Proof.
  intros [[b Hflag] Hassistant]. unfold initialised, holds_handle in *.
  destruct (Assistant_new (log w) (assistant_config api_key)) as [f|h] eqn:Hnew.
  - rewrite (verify_api_key_failure _ _ _ Hnew). cbn [snd session_state].
    rewrite lookup_insert_eq, lookup_insert_ne by discriminate. eauto.
  - rewrite (verify_api_key_success _ _ _ Hnew). cbn [snd session_state].
    rewrite lookup_insert_eq, lookup_insert_ne, lookup_insert_eq by discriminate.
    eauto.
Qed.

Lemma verify_api_key_returns api_key w :
  ∃ b : bool, (verify_api_key api_key w).1 = Ok b
    ∧ (b = false ↔ ∃ f, Assistant_new (log w) (assistant_config api_key) = inl f).
Proof.
  destruct (Assistant_new (log w) (assistant_config api_key)) as [f|h] eqn:Hnew.
  - rewrite (verify_api_key_failure _ _ _ Hnew). exists false. split; [reflexivity|].
    split; eauto.
  - rewrite (verify_api_key_success _ _ _ Hnew). exists true. split; [reflexivity|].
    split; [discriminate | intros [f Hf]; discriminate].
Qed.

(** The form on an initialised session: it returns, it never runs the
    assistant, and the session it leaves is initialised and satisfies the
    invariant. *)
Lemma show_sidebar_form_spec inp w :
  initialised (session_state w) →
  handle_invariant (session_state w) →
  ∃ w' new,
    show_sidebar_form inp w = (Ok tt, w')
    ∧ log w' = log w ++ new
    ∧ Forall (λ e, is_dispatch e = false) new
    ∧ initialised (session_state w')
    ∧ handle_invariant (session_state w').
Proof.
  intros Hinit Hinv.
  unfold show_sidebar_form, mbind, M_bind, bind.
  destruct (in_submitted inp).
  - destruct (str_truthy (in_api_key inp)).
    + pose proof (verify_preserves_initialised (in_api_key inp) w Hinit) as Hinit'.
      pose proof (verify_preserves_invariant (in_api_key inp) w) as Hinv'.
      pose proof (verify_api_key_constructs (in_api_key inp) w) as Hlog.
      destruct (verify_api_key_returns (in_api_key inp) w) as (b & Hret & _).
      destruct (verify_api_key (in_api_key inp) w) as [r w1].
      cbn [fst snd] in *. subst r.
      destruct Hinit' as [[flag Hflag] Hassistant].
      destruct b; unfold emit, get_attr; cbn [session_state log]; rewrite Hflag;
        cbn [truthy]; destruct flag; unfold mret, M_ret, ret; cbn [session_state log];
        eexists _, _; (split; [reflexivity|]); cbn [session_state log];
        rewrite Hlog, <- ?app_assoc;
        (split; [reflexivity|]); (split; [repeat constructor|]);
        (split; [split; eauto | exact Hinv']).
    + destruct Hinit as [[flag Hflag] Hassistant].
      unfold emit, get_attr; cbn [session_state log]; rewrite Hflag;
        cbn [truthy]; destruct flag; unfold mret, M_ret, ret; cbn [session_state log];
        eexists _, _; (split; [reflexivity|]); cbn [session_state log];
        rewrite <- ?app_assoc;
        (split; [reflexivity|]); (split; [repeat constructor|]);
        (split; [split; eauto | exact Hinv]).
  - destruct Hinit as [[flag Hflag] Hassistant].
    unfold emit, get_attr, mret, M_ret, ret; cbn [session_state log]; rewrite Hflag;
      cbn [truthy]; destruct flag; cbn [session_state log].
    + eexists _, _; (split; [reflexivity|]); cbn [session_state log].
      (split; [reflexivity|]); (split; [repeat constructor|]).
      split; [split; eauto | exact Hinv].
    + exists w, []. destruct w as [s l]. cbn [session_state log] in *.
      rewrite app_nil_r. repeat split; eauto.
Qed.

End Sidebar.

(** ** The analysis tabs *)

Section Dispatcher.

Context {Handle Failure : Type} {remote : Collaborator Handle Failure}.

Implicit Types (w : world Handle) (s : gmap string (value Handle)).

Lemma runs_on_ret s {A} (a : A) (post : A → Prop) :
  post a → runs_on (Failure := Failure) s (mret a) post.
Proof.
  intros Hpost w Hs. exists []. cbn. rewrite app_nil_r.
  repeat split; try assumption; try constructor.
  intros a' [= <-]. exact Hpost.
Qed.

Lemma runs_on_bind s {A B} (m : M Handle Failure A) (k : A → M Handle Failure B)
    (mid : A → Prop) (post : B → Prop) :
  runs_on s m mid →
  (∀ a, mid a → runs_on s (k a) post) →
  runs_on s (m ≫= k) post.
Proof.
  intros Hm Hk w Hs. unfold mbind, M_bind, bind.
  destruct (Hm w Hs) as (new1 & Hs1 & Hlog1 & Hev1 & Hmid).
  destruct (m w) as [[a|e] w1]; cbn [fst snd] in *.
  - destruct (Hk a (Hmid a eq_refl) w1 Hs1) as (new2 & Hs2 & Hlog2 & Hev2 & Hpost).
    exists (new1 ++ new2). rewrite Hlog2, Hlog1, app_assoc.
    repeat split; try assumption. now apply Forall_app.
  - exists new1. repeat split; try assumption. intros b [=].
Qed.

Lemma runs_on_emit s (e : event Handle) :
  tab_event s e → runs_on (Failure := Failure) s (emit e) (λ _, True).
Proof.
  intros He w Hs. exists [e]. cbn. repeat split; try assumption.
  now constructor.
Qed.

Lemma runs_on_get_attr s (name : string) :
  runs_on (Failure := Failure) s (get_attr name) (λ v, s !! name = Some v).
Proof.
  intros w Hs. exists []. unfold get_attr. rewrite app_nil_r.
  destruct (session_state w !! name) as [v|] eqn:Hv; cbn [fst snd];
    repeat split; try assumption; try constructor.
  - intros a [= <-]. now rewrite <- Hs.
  - intros a [=].
Qed.

Lemma runs_on_call_run s (v : value Handle) (query : string) (stream : bool) :
  s !! "assistant" = Some v →
  runs_on s (call_run v query stream) (λ _, True).
Proof.
  intros Hv w Hs. destruct v as [|b|h]; cbn [call_run].
  - exists []. cbn. rewrite app_nil_r. repeat split; try assumption; constructor.
  - exists []. cbn. rewrite app_nil_r. repeat split; try assumption; constructor.
  - exists [EvAssistantRun h query stream].
    destruct (Assistant_run (log w) h query stream); cbn [fst snd session_state log];
      repeat split; try assumption; repeat constructor; assumption.
Qed.

Lemma runs_on_dispatch s (query : string) :
  runs_on s
    (assistant ← get_attr "assistant";
     response ← call_run assistant query false;
     emit (EvMarkdown response))
    (λ _, True).
Proof.
  eapply runs_on_bind; [apply runs_on_get_attr|].
  intros v Hv. eapply runs_on_bind; [now apply runs_on_call_run|].
  intros response _. now apply runs_on_emit.
Qed.

Lemma handle_stock_comparison_runs_on s inp :
  runs_on s (handle_stock_comparison inp) (λ _, True).
Proof.
  unfold handle_stock_comparison.
  destruct (str_truthy (in_stock1 inp) && str_truthy (in_stock2 inp));
    [destruct (in_generate inp)|]; try now apply runs_on_ret.
  apply runs_on_dispatch.
Qed.

Lemma handle_single_stock_runs_on s inp :
  runs_on s (handle_single_stock inp) (λ _, True).
Proof.
  unfold handle_single_stock.
  destruct (str_truthy (in_stock inp)); [destruct (in_analyze inp)|];
    try now apply runs_on_ret.
  apply runs_on_dispatch.
Qed.

Lemma show_main_content_runs_on s inp :
  runs_on s (show_main_content inp) (λ _, True).
Proof.
  unfold show_main_content.
  eapply runs_on_bind; [apply handle_stock_comparison_runs_on|]. intros _ _.
  eapply runs_on_bind; [apply handle_single_stock_runs_on|]. intros _ _.
  now apply runs_on_emit.
Qed.

End Dispatcher.

(** ** The gate of [run] *)

Section Gate.

Context {Handle Failure : Type} {remote : Collaborator Handle Failure}.

Implicit Types (w : world Handle) (s : gmap string (value Handle)).

Lemma run_gated inp w :
  initialised (session_state w) →
  handle_invariant (session_state w) →
  ∃ new,
    log (run inp w).2 = log w ++ new
    ∧ initialised (session_state (run inp w).2)
    ∧ handle_invariant (session_state (run inp w).2)
    ∧ gated (session_state (run inp w).2) (run inp w).1 new.
Proof.
  intros Hinit Hinv.
  destruct (show_sidebar_form_spec inp w Hinit Hinv)
    as (w1 & new1 & Hform & Hlog1 & Hev1 & Hinit1 & Hinv1).
  destruct Hinit1 as [[b Hflag] Hassistant].
  assert (Hrun : run inp w
                 = (if b then show_main_content inp
                    else emit (EvWarning "Please enter your OpenAI API key in the sidebar to begin.")) w1).
  { unfold run, mbind, M_bind, bind. rewrite Hform.
    unfold get_attr. rewrite Hflag. reflexivity. }
  rewrite Hrun. clear Hrun. destruct b.
  - destruct (show_main_content_runs_on (session_state w1) inp w1 eq_refl)
      as (new2 & Hs2 & Hlog2 & Hev2 & _).
    exists (new1 ++ new2). rewrite Hlog2, Hlog1, app_assoc, Hs2.
    split; [reflexivity|]. split; [split; eauto|]. split; [exact Hinv1|].
    split.
    + intros h query stream Hin. split; [exact Hflag|].
      apply elem_of_app in Hin as [Hin|Hin].
      * rewrite Forall_forall in Hev1. apply Hev1 in Hin. discriminate.
      * rewrite Forall_forall in Hev2. exact (Hev2 _ Hin).
    + intros Hnot. contradiction.
  - unfold emit. cbn [fst snd session_state log].
    exists (new1 ++ [EvWarning "Please enter your OpenAI API key in the sidebar to begin."]). rewrite Hlog1, app_assoc.
    split; [reflexivity|]. split; [split; eauto|]. split; [exact Hinv1|].
    split.
    + intros h query stream Hin. exfalso.
      apply elem_of_app in Hin as [Hin|Hin].
      * rewrite Forall_forall in Hev1. apply Hev1 in Hin. discriminate.
      * apply list_elem_of_singleton in Hin. discriminate.
    + intros _. split; [reflexivity|]. split.
      * apply Forall_app. split; [exact Hev1 | repeat constructor].
      * apply last_snoc.
Qed.

(** [__init__] on a session that is empty, or was initialised before. *)
Lemma init_establishes w :
  session_state w = ∅
  ∨ (initialised (session_state w) ∧ handle_invariant (session_state w)) →
  ∃ w0,
    StockAnalysisApp_init (Failure := Failure) w = (Ok tt, w0)
    ∧ log w0 = log w
    ∧ initialised (session_state w0)
    ∧ handle_invariant (session_state w0).
Proof.
  intros Hw. rewrite init_session. eexists. split; [reflexivity|].
  cbn [session_state log]. split; [reflexivity|].
  destruct Hw as [Hempty|[[[b Hflag] Hassistant] Hinv]].
  - rewrite Hempty, lookup_empty, lookup_insert_ne, lookup_empty by discriminate.
    split.
    + split.
      * exists false. rewrite lookup_insert_ne by discriminate. apply lookup_insert_eq.
      * left. apply lookup_insert_eq.
    + intros Hv. unfold is_verified in Hv.
      rewrite lookup_insert_ne, lookup_insert_eq in Hv by discriminate. discriminate.
  - rewrite Hflag.
    assert (Hsome : ∃ a, session_state w !! "assistant" = Some a).
    { destruct Hassistant as [Hnone|[h Hh]]; eauto. }
    destruct Hsome as [a Ha]. rewrite Ha.
    split; [split; eauto | exact Hinv].
Qed.

(** A session is empty until the first execution of the script, and
    initialised, with the invariant, ever after. *)
Lemma reachable_session w :
  reachable w →
  session_state w = ∅
  ∨ (initialised (session_state w) ∧ handle_invariant (session_state w)).
Proof.
  induction 1 as [|inp w Hreach IH]; [left; reflexivity|]. right.
  destruct (init_establishes w IH) as (w0 & Hinit & _ & Hinit0 & Hinv0).
  unfold main, mbind, M_bind, bind. rewrite Hinit.
  destruct (run_gated inp w0 Hinit0 Hinv0) as (new & _ & Hinit' & Hinv' & _).
  split; assumption.
Qed.

(** C1: in every state that the application reaches, an execution of the
    script runs the assistant ([assistant.run], in either tab) only when
    [api_key_verified] is [True], and then on the assistant stored in the
    session; when the session is not verified the execution ends with the
    warning, and has run no assistant. *)
Theorem dispatch_only_when_verified inp w :
  reachable w →
  ∃ new,
    log (main inp w).2 = log w ++ new
    ∧ (∀ h query stream, EvAssistantRun h query stream ∈ new →
         is_verified (session_state (main inp w).2)
         ∧ session_state (main inp w).2 !! "assistant" = Some (VAssistant h))
    ∧ (¬ is_verified (session_state (main inp w).2) →
         (main inp w).1 = Ok tt
         ∧ Forall (λ e, is_dispatch e = false) new
         ∧ last new = Some (EvWarning "Please enter your OpenAI API key in the sidebar to begin.")).
Proof.
  intros Hreach.
  destruct (init_establishes w (reachable_session w Hreach))
    as (w0 & Hinit & Hlog0 & Hinit0 & Hinv0).
  unfold main, mbind, M_bind, bind. rewrite Hinit.
  destruct (run_gated inp w0 Hinit0 Hinv0) as (new & Hlog & _ & _ & Hgated).
  exists new. rewrite <- Hlog0. split; [exact Hlog|]. exact Hgated.
Qed.

End Gate.

(** ** Missing keys, missing handles and remote failures *)

Section Errors.

Context {Handle Failure : Type} {remote : Collaborator Handle Failure}.

Implicit Types (w : world Handle) (s : gmap string (value Handle)).

(** C3, as the code has it: when the key field is empty the sidebar form,
    the only caller of [verify_api_key], never calls it: the session is
    left as it is, no call to the collaborator is made, and a submission is
    answered by the error "Please enter an API key.". *)
Theorem empty_key_rejected_by_form inp w :
  in_api_key inp = "" →
  ∃ new,
    log (show_sidebar_form inp w).2 = log w ++ new
    ∧ session_state (show_sidebar_form inp w).2 = session_state w
    ∧ Forall (λ e, is_remote_call e = false) new
    ∧ (in_submitted inp = true → head new = Some (EvError "Please enter an API key.")).
Proof.
  intros Hkey. unfold show_sidebar_form, mbind, M_bind, bind. rewrite Hkey.
  cbn [str_truthy]. unfold emit, get_attr, mret, M_ret, ret.
  destruct (in_submitted inp); cbn [session_state log];
    destruct (session_state w !! "api_key_verified") as [v|];
    try destruct (truthy v); cbn [fst snd session_state log];
    rewrite <- ?app_assoc;
    eexists; (split; [try reflexivity; symmetry; apply app_nil_r|]);
    (split; [reflexivity|]); (split; [repeat constructor|]);
    first [reflexivity | discriminate].
Qed.

(** Any other key, whitespace included, goes to the constructor first. *)
Lemma nonempty_key_reaches_constructor inp w :
  in_submitted inp = true →
  str_truthy (in_api_key inp) = true →
  ∃ rest,
    log (show_sidebar_form inp w).2
    = log w ++ EvAssistantNew (assistant_config (in_api_key inp)) :: rest.
Proof.
  intros Hsubmitted Hkey. unfold show_sidebar_form, mbind, M_bind, bind.
  rewrite Hsubmitted, Hkey.
  pose proof (verify_api_key_constructs (in_api_key inp) w) as Hlog.
  destruct (verify_api_key_returns (in_api_key inp) w) as (b & Hret & _).
  destruct (verify_api_key (in_api_key inp) w) as [r w1].
  cbn [fst snd] in *. subst r.
  unfold emit, get_attr, mret, M_ret, ret.
  destruct b; cbn [session_state log];
    destruct (session_state w1 !! "api_key_verified") as [v|];
    try destruct (truthy v); cbn [snd session_state log];
    rewrite Hlog, <- ?app_assoc; eexists; reflexivity.
Qed.


(** A computation that runs no assistant has no failure to hide. *)
Lemma escape_without_dispatch {A} (m : M Handle Failure A) w new :
  log (m w).2 = log w ++ new →
  Forall (λ e, is_dispatch e = false) new →
  run_failures_escape m w.
Proof.
  intros Hlog Hnone. exists new. split; [exact Hlog|].
  intros pre h query stream post f -> _. exfalso.
  apply Forall_app in Hnone as [_ Hnone].
  apply Forall_cons in Hnone as [Hrun _]. discriminate.
Qed.

(** Where a recorded run lies in the events of two steps. *)
Lemma run_event_split (new1 new2 pre post : list (event Handle)) (e : event Handle) :
  new1 ++ new2 = pre ++ e :: post →
  (∃ post1, new1 = pre ++ e :: post1 ∧ post = post1 ++ new2)
  ∨ (∃ pre2, pre = new1 ++ pre2 ∧ new2 = pre2 ++ e :: post).
Proof.
  revert pre. induction new1 as [|x new1 IH]; intros pre Heq.
  - right. exists pre. split; [reflexivity | exact Heq].
  - destruct pre as [|y pre].
    + injection Heq as -> Hrest. left. exists new1. split; [reflexivity | now symmetry].
    + injection Heq as -> Hrest. destruct (IH pre Hrest) as [[post1 [-> ->]]|[pre2 [-> ->]]].
      * left. exists post1. split; reflexivity.
      * right. exists pre2. split; reflexivity.
Qed.

Lemma escape_bind {A B} (m : M Handle Failure A) (k : A → M Handle Failure B) w :
  run_failures_escape m w →
  (∀ a, (m w).1 = Ok a → run_failures_escape (k a) (m w).2) →
  run_failures_escape (m ≫= k) w.
Proof.
  intros (new1 & Hlog1 & Hesc1) Hk.
  unfold run_failures_escape, mbind, M_bind, bind.
  destruct (m w) as [[a|e] w1]; cbn [fst snd] in *.
  - destruct (Hk a eq_refl) as (new2 & Hlog2 & Hesc2).
    exists (new1 ++ new2). rewrite Hlog2, Hlog1, app_assoc. split; [reflexivity|].
    intros pre h query stream post f Hsplit Hfails.
    apply run_event_split in Hsplit as [[post1 [-> ->]]|[pre2 [-> ->]]].
    + destruct (Hesc1 _ _ _ _ _ _ eq_refl Hfails) as [Hraise _]. discriminate.
    + apply (Hesc2 pre2 h query stream post f eq_refl).
      now rewrite Hlog1, <- app_assoc.
  - exists new1. split; [exact Hlog1|].
    intros pre h query stream post f Hsplit Hfails.
    destruct (Hesc1 _ _ _ _ _ _ Hsplit Hfails) as [[= ->] ->]. split; reflexivity.
Qed.

Lemma escape_call_run (v : value Handle) (query : string) (stream : bool) w :
  run_failures_escape (call_run v query stream) w.
Proof.
  destruct v as [|b|h];
    try (apply (escape_without_dispatch _ w []); [symmetry; apply app_nil_r | constructor]).
  exists [EvAssistantRun h query stream]. cbn [call_run].
  destruct (Assistant_run (log w) h query stream) as [f0|answer] eqn:Hrun;
    cbn [fst snd log]; (split; [reflexivity|]);
    intros pre h' query' stream' post f Hsplit Hfails;
    (destruct pre as [|x pre];
     [ injection Hsplit as <- <- <- <-; rewrite app_nil_r in Hfails;
       rewrite Hrun in Hfails
     | injection Hsplit as _ Hnil; now destruct pre ]).
  - injection Hfails as <-. split; reflexivity.
  - discriminate.
Qed.

(** The three lines that both tabs share. *)
Lemma escape_dispatch (query : string) w :
  run_failures_escape
    (assistant ← get_attr "assistant";
     response ← call_run assistant query false;
     emit (EvMarkdown response)) w.
Proof.
  apply escape_bind.
  - apply (escape_without_dispatch _ w []); [|constructor].
    unfold get_attr. destruct (session_state w !! "assistant");
      cbn [snd]; symmetry; apply app_nil_r.
  - intros v _. apply escape_bind; [apply escape_call_run|].
    intros response _.
    apply (escape_without_dispatch _ _ [EvMarkdown response]);
      [reflexivity | repeat constructor].
Qed.

Lemma escape_ret {A} (a : A) w :
  run_failures_escape (Failure := Failure) (mret a) w.
Proof.
  apply (escape_without_dispatch _ w []); [symmetry; apply app_nil_r | constructor].
Qed.

Lemma handle_stock_comparison_escape inp w :
  run_failures_escape (handle_stock_comparison inp) w.
Proof.
  unfold handle_stock_comparison.
  destruct (str_truthy (in_stock1 inp) && str_truthy (in_stock2 inp));
    [destruct (in_generate inp)|]; try apply escape_ret.
  apply escape_dispatch.
Qed.

Lemma handle_single_stock_escape inp w :
  run_failures_escape (handle_single_stock inp) w.
Proof.
  unfold handle_single_stock.
  destruct (str_truthy (in_stock inp)); [destruct (in_analyze inp)|];
    try apply escape_ret.
  apply escape_dispatch.
Qed.

Lemma show_main_content_escape inp w :
  run_failures_escape (show_main_content inp) w.
Proof.
  unfold show_main_content.
  apply escape_bind; [apply handle_stock_comparison_escape|]. intros _ _.
  apply escape_bind; [apply handle_single_stock_escape|]. intros _ _.
  apply (escape_without_dispatch _ _ [EvInfo "Market Insights feature coming soon!"]);
    [reflexivity | repeat constructor].
Qed.

(** C5, as the code has it: [verify_api_key] catches every failure of the
    constructor and turns it into the result [False], so that it always
    returns. The tabs have no handler: in each of them, and in the whole
    script from any state that the application reaches, a run of the
    assistant that fails is the last thing that happens, nothing is
    rendered after it, and its failure is the exception that comes out. *)
Theorem remote_failures_caught_by_verifier_only api_key inp w :
  (∃ b : bool, (verify_api_key api_key w).1 = Ok b
     ∧ (b = false ↔ ∃ f, Assistant_new (log w) (assistant_config api_key) = inl f))
  ∧ run_failures_escape (handle_stock_comparison inp) w
  ∧ run_failures_escape (handle_single_stock inp) w
  ∧ (reachable w → run_failures_escape (main inp) w).
Proof.
  split; [apply verify_api_key_returns|].
  split; [apply handle_stock_comparison_escape|].
  split; [apply handle_single_stock_escape|].
  intros Hreach.
  destruct (init_establishes (Failure := Failure) w (reachable_session w Hreach))
    as (w0 & Hinit & Hlog0 & Hinit0 & Hinv0).
  destruct (show_sidebar_form_spec inp w0 Hinit0 Hinv0)
    as (w1 & new1 & Hform & Hlog1 & Hev1 & [[b Hflag] _] & _).
  assert (Hmain : main inp w
                  = (if b then show_main_content inp
                     else emit (EvWarning "Please enter your OpenAI API key in the sidebar to begin."))
                      w1).
  { unfold main. unfold mbind at 1. unfold M_bind, bind. rewrite Hinit.
    unfold run, mbind, M_bind, bind. rewrite Hform.
    unfold get_attr. rewrite Hflag. reflexivity. }
  unfold run_failures_escape. rewrite Hmain. rewrite <- Hlog0.
  destruct b.
  - destruct (show_main_content_escape inp w1) as (new2 & Hlog2 & Hesc2).
    exists (new1 ++ new2). rewrite Hlog2, Hlog1, app_assoc. split; [reflexivity|].
    intros pre h query stream post f Hsplit Hfails.
    apply run_event_split in Hsplit as [[post1 [-> ->]]|[pre2 [-> ->]]].
    + exfalso. apply Forall_app in Hev1 as [_ Hev1].
      apply Forall_cons in Hev1 as [Hrun _]. discriminate.
    + apply (Hesc2 pre2 h query stream post f eq_refl).
      now rewrite Hlog1, <- app_assoc.
  - exists (new1 ++ [EvWarning "Please enter your OpenAI API key in the sidebar to begin."]).
    unfold emit. cbn [fst snd log]. rewrite Hlog1, app_assoc. split; [reflexivity|].
    intros pre h query stream post f Hsplit _. exfalso.
    assert (Hall : Forall (λ e : event Handle, is_dispatch e = false)
                     (new1 ++ [EvWarning "Please enter your OpenAI API key in the sidebar to begin."])).
    { apply Forall_app. split; [exact Hev1 | repeat constructor]. }
    rewrite Hsplit in Hall. apply Forall_app in Hall as [_ Hall].
    apply Forall_cons in Hall as [Hrun _]. discriminate.
Qed.

End Errors.

(** ** Concrete executions *)

Lemma dispatch_only_when_verified_witness :
  reachable (remote := demo_remote) verified_world
  ∧ ∃ new,
      log (main (remote := demo_remote) (analyze_stock "GOOGL" ["Recent News"])
             verified_world).2
      = log verified_world ++ new
      ∧ (∀ h query stream, EvAssistantRun h query stream ∈ new →
           is_verified
             (session_state
                (main (remote := demo_remote) (analyze_stock "GOOGL" ["Recent News"])
                   verified_world).2)
           ∧ session_state
               (main (remote := demo_remote) (analyze_stock "GOOGL" ["Recent News"])
                  verified_world).2 !! "assistant" = Some (VAssistant h))
      ∧ (¬ is_verified
             (session_state
                (main (remote := demo_remote) (analyze_stock "GOOGL" ["Recent News"])
                   verified_world).2) →
           (main (remote := demo_remote) (analyze_stock "GOOGL" ["Recent News"])
              verified_world).1 = Ok tt
           ∧ Forall (λ e, is_dispatch e = false) new
           ∧ last new = Some (EvWarning "Please enter your OpenAI API key in the sidebar to begin.")).
Proof.
  split.
  - apply reachable_rerun, reachable_fresh.
  - apply (dispatch_only_when_verified (remote := demo_remote)
             (analyze_stock "GOOGL" ["Recent News"]) verified_world).
    apply reachable_rerun, reachable_fresh.
Defined.

Lemma failed_verify_keeps_handle_witness :
  Assistant_new (Collaborator := demo_remote) (log verified_world)
    (assistant_config "wrong-key") = inl "invalid api key"
  ∧ (verify_api_key (remote := demo_remote) "wrong-key" verified_world).1 = Ok false
  ∧ session_state (verify_api_key (remote := demo_remote) "wrong-key" verified_world).2
      !! "api_key_verified" = Some (VBool false)
  ∧ session_state (verify_api_key (remote := demo_remote) "wrong-key" verified_world).2
      !! "assistant" = session_state verified_world !! "assistant".
Proof.
  split.
  - vm_compute. reflexivity.
  - apply (failed_verify_keeps_handle (remote := demo_remote) "wrong-key"
             verified_world "invalid api key").
    vm_compute. reflexivity.
Defined.

(** C2 fails on the code: a visitor verifies the key "sk-demo" and then
    submits a key that the constructor rejects. The flag is cleared, but
    the assistant built for the first key is still stored in the session. *)
Lemma failed_verify_leaves_stale_handle :
  Assistant_new (Collaborator := demo_remote) (log verified_world)
    (assistant_config "wrong-key") = inl "invalid api key"
  ∧ session_state verified_world !! "assistant" = Some (VAssistant 0)
  ∧ session_state (verify_api_key (remote := demo_remote) "wrong-key" verified_world).2
      !! "assistant" = Some (VAssistant 0)
  ∧ ¬ (session_state (verify_api_key (remote := demo_remote) "wrong-key" verified_world).2
         !! "api_key_verified" = Some (VBool false)
       ∧ ¬ holds_handle
             (session_state
                (verify_api_key (remote := demo_remote) "wrong-key" verified_world).2)).
Proof.
  assert (Hstale :
    session_state (verify_api_key (remote := demo_remote) "wrong-key" verified_world).2
      !! "assistant" = Some (VAssistant 0)) by (vm_compute; reflexivity).
  split; [vm_compute; reflexivity|]. split; [vm_compute; reflexivity|].
  split; [exact Hstale|].
  intros [_ Hcleared]. apply Hcleared. exists 0. exact Hstale.
Qed.

Lemma empty_key_rejected_by_form_witness :
  in_api_key (submit_key "") = ""
  ∧ ∃ new,
      log (show_sidebar_form (remote := demo_remote) (submit_key "") verified_world).2
      = log verified_world ++ new
      ∧ session_state
          (show_sidebar_form (remote := demo_remote) (submit_key "") verified_world).2
        = session_state verified_world
      ∧ Forall (λ e, is_remote_call e = false) new
      ∧ (in_submitted (submit_key "") = true →
         head new = Some (EvError "Please enter an API key.")).
Proof.
  split.
  - reflexivity.
  - apply (empty_key_rejected_by_form (remote := demo_remote) (submit_key "")
             verified_world).
    reflexivity.
Defined.

(** C3 fails on the code: a key of three spaces is a non-empty string, so
    the form passes it to [verify_api_key], which calls the constructor. *)
Lemma whitespace_key_reaches_constructor :
  all_space "   " = true
  ∧ log (main (remote := demo_remote) (submit_key "   ") fresh).2
    = [EvAssistantNew (assistant_config "   ");
       EvError "Invalid API key. Please check and try again.";
       EvWarning "Please enter your OpenAI API key in the sidebar to begin."]
  ∧ ¬ Forall (λ e, is_construction e = false)
        (log (main (remote := demo_remote) (submit_key "   ") fresh).2).
Proof.
  split; [vm_compute; reflexivity|].
  assert (Hlog : log (main (remote := demo_remote) (submit_key "   ") fresh).2
                 = [EvAssistantNew (assistant_config "   ");
                    EvError "Invalid API key. Please check and try again.";
                    EvWarning "Please enter your OpenAI API key in the sidebar to begin."]) by (vm_compute; reflexivity).
  split; [exact Hlog|]. rewrite Hlog. intros Hnone.
  apply Forall_cons in Hnone as [Hfirst _]. discriminate.
Qed.



Lemma remote_failures_caught_by_verifier_only_witness :
  reachable (remote := demo_remote) verified_world
  ∧ (verify_api_key (remote := demo_remote) "wrong-key" verified_world).1 = Ok false
  ∧ (main (remote := demo_remote) (analyze_stock "FAIL" ["Price Trends"])
       verified_world).1 = Raise (RemoteFailure "remote failure").
Proof.
  assert (Hreach : reachable (remote := demo_remote) verified_world)
    by apply reachable_rerun, reachable_fresh.
  destruct (remote_failures_caught_by_verifier_only (remote := demo_remote)
              "wrong-key" (analyze_stock "FAIL" ["Price Trends"]) verified_world)
    as ((b & Hverify & Hb) & _ & _ & Hmain).
  split; [exact Hreach|]. split.
  - rewrite Hverify. f_equal. apply Hb. exists "invalid api key". vm_compute. reflexivity.
  - destruct (Hmain Hreach) as (new & Hlog & Hescape).
    assert (Hnew : new = [EvSidebarSuccess "✅ API Key Status: Verified";
                          EvAssistantRun 0 "Analyze FAIL focusing on Price Trends" false]).
    { apply (app_inv_head (log verified_world)). rewrite <- Hlog. vm_compute. reflexivity. }
    apply (Hescape [EvSidebarSuccess "✅ API Key Status: Verified"] 0
             "Analyze FAIL focusing on Price Trends" false [] "remote failure").
    + exact Hnew.
    + vm_compute. reflexivity.
Defined.

(** C5 fails on the code: in the verified session, a prompt on which the
    assistant raises makes the whole script raise; the failure reaches
    Streamlit uncaught. *)
Lemma remote_failure_escapes_run :
  reachable (remote := demo_remote) verified_world
  ∧ (main (remote := demo_remote) (analyze_stock "FAIL" ["Price Trends"])
       verified_world).1 = Raise (RemoteFailure "remote failure")
  ∧ ¬ ∃ u, (main (remote := demo_remote) (analyze_stock "FAIL" ["Price Trends"])
              verified_world).1 = Ok u.
Proof.
  assert (Hraise :
    (main (remote := demo_remote) (analyze_stock "FAIL" ["Price Trends"])
       verified_world).1 = Raise (RemoteFailure "remote failure"))
    by (vm_compute; reflexivity).
  split; [apply reachable_rerun, reachable_fresh|]. split; [exact Hraise|].
  rewrite Hraise. intros [u Hu]. discriminate.
Qed.

Lemma verified_implies_handle_witness :
  handle_invariant (session_state verified_world)
  ∧ handle_invariant
      (session_state (exec_op (remote := demo_remote) (OpVerify "wrong-key") verified_world))
  ∧ handle_invariant
      (session_state (exec_op (remote := demo_remote) (OpVerify "wrong-key") fresh)).
Proof.
  assert (Hinv : handle_invariant (session_state verified_world)).
  { intros _. exists 0. vm_compute. reflexivity. }
  split; [exact Hinv|].
  exact (verified_implies_handle (remote := demo_remote) (OpVerify "wrong-key")
           verified_world Hinv).
Defined.

(** * Further properties of the session set-up, the verifier and the tabs *)

(** ** [__init__] *)

Section SessionSetup.

Context {Handle Failure : Type}.

Implicit Types (w : world Handle) (s : gmap string (value Handle)).

(** [__init__] completes the session with the default of each missing
    attribute; what is stored already wins. *)
Lemma init_session_union w :
  StockAnalysisApp_init (Failure := Failure) w
  = (Ok tt,
     {| session_state :=
          session_state w
          ∪ <["api_key_verified" := VBool false]> (<["assistant" := VNone]> ∅);
        log := log w |}).
Proof.
  rewrite init_session. f_equal. f_equal. cbv zeta.
  apply map_eq. intros name. rewrite lookup_union.
  destruct (session_state w !! "api_key_verified") as [flag|] eqn:Hflag.
  - destruct (session_state w !! "assistant") as [a|] eqn:Ha.
    + destruct (session_state w !! name) as [v|] eqn:Hv; [now rewrite union_Some_l|].
      rewrite (left_id None _).
      rewrite !lookup_insert_ne by congruence. now rewrite lookup_empty.
    + destruct (decide (name = "assistant")) as [->|Hne].
      * rewrite lookup_insert_eq, Ha, (left_id None _).
        rewrite lookup_insert_ne by discriminate. now rewrite lookup_insert_eq.
      * rewrite lookup_insert_ne by congruence.
        destruct (session_state w !! name) as [v|] eqn:Hv; [now rewrite union_Some_l|].
        rewrite (left_id None _).
        rewrite !lookup_insert_ne by congruence. now rewrite lookup_empty.
  - rewrite lookup_insert_ne by discriminate.
    destruct (session_state w !! "assistant") as [a|] eqn:Ha.
    + destruct (decide (name = "api_key_verified")) as [->|Hne].
      * now rewrite lookup_insert_eq, Hflag, (left_id None _), lookup_insert_eq.
      * rewrite lookup_insert_ne by congruence.
        destruct (session_state w !! name) as [v|] eqn:Hv; [now rewrite union_Some_l|].
        rewrite (left_id None _).
        rewrite !lookup_insert_ne by congruence. now rewrite lookup_empty.
    + destruct (decide (name = "assistant")) as [->|Hne].
      * rewrite lookup_insert_eq, Ha, (left_id None _).
        rewrite lookup_insert_ne by discriminate. now rewrite lookup_insert_eq.
      * rewrite lookup_insert_ne by congruence.
        destruct (decide (name = "api_key_verified")) as [->|Hne'].
        -- now rewrite lookup_insert_eq, Hflag, (left_id None _), lookup_insert_eq.
        -- rewrite lookup_insert_ne by congruence.
           destruct (session_state w !! name) as [v|] eqn:Hv; [now rewrite union_Some_l|].
           rewrite (left_id None _).
           rewrite !lookup_insert_ne by congruence. now rewrite lookup_empty.
Qed.


(** X2: [__init__] is idempotent: on the session it has set up, a second
    call changes nothing. *)
Theorem init_idempotent w :
  StockAnalysisApp_init (Failure := Failure)
    (StockAnalysisApp_init (Failure := Failure) w).2
  = (Ok tt, (StockAnalysisApp_init (Failure := Failure) w).2).
Proof.
  rewrite !init_session_union. cbn [snd session_state log].
  f_equal. f_equal. now rewrite <- (assoc_L (∪)), (idemp_L (∪)).
Qed.

End SessionSetup.

(** ** [verify_api_key] and the script without a submission *)

Section VerifierMore.

Context {Handle Failure : Type} {remote : Collaborator Handle Failure}.

Implicit Types (w : world Handle) (s : gmap string (value Handle)).

(** X3: when the constructor returns an assistant, [verify_api_key] returns
    [True], sets [api_key_verified] to [True] and stores that assistant,
    replacing whatever [assistant] held; no other attribute of the session
    is touched. *)
Theorem verify_success_stores_handle api_key w h :
  Assistant_new (log w) (assistant_config api_key) = inr h →
  (verify_api_key api_key w).1 = Ok true
  ∧ is_verified (session_state (verify_api_key api_key w).2)
  ∧ session_state (verify_api_key api_key w).2 !! "assistant" = Some (VAssistant h)
  ∧ ∀ name, name ≠ "api_key_verified" → name ≠ "assistant" →
      session_state (verify_api_key api_key w).2 !! name = session_state w !! name.
Proof.
  intros Hnew. rewrite (verify_api_key_success _ _ _ Hnew).
  cbn [fst snd session_state]. split; [reflexivity|]. split; [apply lookup_insert_eq|].
  split.
  - rewrite lookup_insert_ne by discriminate. apply lookup_insert_eq.
  - intros name Hflag Hassistant. now rewrite !lookup_insert_ne by congruence.
Qed.

(** X4: whatever the key and the outcome, [verify_api_key] calls the
    constructor exactly once (no retry), with the model "gpt-4o", the key
    as given, the four market-data tools and tool calls shown; it shows no
    message itself, and it returns [True] exactly when the constructor
    returned. *)
Theorem verify_calls_constructor_once api_key w :
  log (verify_api_key api_key w).2
  = log w ++ [EvAssistantNew
                {| llm_model := "gpt-4o"; llm_api_key := api_key;
                   stock_price := true; analyst_recommendations := true;
                   company_info := true; company_news := true;
                   show_tool_calls := true |}]
  ∧ ((verify_api_key api_key w).1 = Ok true
     ↔ ∃ h, Assistant_new (log w) (assistant_config api_key) = inr h).
Proof.
  split; [apply verify_api_key_constructs|].
  destruct (Assistant_new (log w) (assistant_config api_key)) as [f|h] eqn:Hnew.
  - rewrite (verify_api_key_failure _ _ _ Hnew). cbn [fst].
    split; [discriminate | intros [h Hh]; discriminate].
  - rewrite (verify_api_key_success _ _ _ Hnew). cbn [fst]. split; eauto.
Qed.

(** [__init__] on an initialised session does nothing. *)
Lemma init_noop w :
  initialised (session_state w) →
  StockAnalysisApp_init (Failure := Failure) w = (Ok tt, w).
Proof.
  intros [[b Hflag] Hassistant]. rewrite init_session.
  assert (Hsome : ∃ a, session_state w !! "assistant" = Some a).
  { destruct Hassistant as [Hnone|[h Hh]]; eauto. }
  destruct Hsome as [a Ha]. cbv zeta. rewrite Hflag, Ha. now destruct w.
Qed.

(** X5: an execution of the script in which the key form is not submitted
    leaves an initialised session exactly as it was, whatever the tabs do
    and even when a run of the assistant fails, and it never calls the
    constructor. *)
Theorem session_kept_without_submission inp w :
  initialised (session_state w) →
  in_submitted inp = false →
  ∃ new,
    log (main inp w).2 = log w ++ new
    ∧ session_state (main inp w).2 = session_state w
    ∧ Forall (λ e, is_construction e = false) new.
Proof.
  intros Hinit Hsubmitted.
  assert (Hmain : main inp w = run inp w).
  { unfold main. unfold mbind at 1. unfold M_bind, bind. now rewrite (init_noop w Hinit). }
  rewrite Hmain. clear Hmain.
  destruct Hinit as [[b Hflag] Hassistant].
  assert (Hform : show_sidebar_form inp w
                  = (Ok tt,
                     {| session_state := session_state w;
                        log := log w ++ (if b then [EvSidebarSuccess "✅ API Key Status: Verified"]
                                         else []) |})).
  { unfold show_sidebar_form, mbind, M_bind, bind, mret, M_ret, ret, get_attr, emit.
    rewrite Hsubmitted, Hflag. cbn [truthy].
    destruct b; [reflexivity|]. rewrite app_nil_r. now destruct w. }
  assert (Hrun : run inp w
                 = (if b then show_main_content inp
                    else emit (EvWarning "Please enter your OpenAI API key in the sidebar to begin."))
                     {| session_state := session_state w;
                        log := log w ++ (if b then [EvSidebarSuccess "✅ API Key Status: Verified"]
                                         else []) |}).
  { unfold run, mbind, M_bind, bind. rewrite Hform.
    unfold get_attr. cbn [session_state]. rewrite Hflag. reflexivity. }
  rewrite Hrun. clear Hrun Hform. destruct b; cbv beta iota.
  - destruct (show_main_content_runs_on (session_state w) inp
                {| session_state := session_state w;
                   log := log w ++ [EvSidebarSuccess "✅ API Key Status: Verified"] |}
                eq_refl) as (new & Hs & Hlog & Hev & _).
    exists (EvSidebarSuccess "✅ API Key Status: Verified" :: new).
    rewrite Hlog, Hs. cbn [log]. rewrite <- app_assoc.
    split; [reflexivity|]. split; [reflexivity|].
    constructor; [reflexivity|].
    eapply Forall_impl; [exact Hev|]. intros e He. now destruct e.
  - exists [EvWarning "Please enter your OpenAI API key in the sidebar to begin."].
    unfold emit. cbn [snd session_state log]. rewrite app_nil_r.
    repeat split. repeat constructor.
Qed.

End VerifierMore.

(** ** The tabs *)

Section Tabs.

Context {Handle Failure : Type} {remote : Collaborator Handle Failure}.

Implicit Types (w : world Handle) (s : gmap string (value Handle)).

Lemma comparison_requested_true inp :
  comparison_requested inp = true →
  str_truthy (in_stock1 inp) && str_truthy (in_stock2 inp) = true
  ∧ in_generate inp = true.
Proof. unfold comparison_requested. apply andb_true_iff. Qed.

Lemma single_requested_true inp :
  single_requested inp = true →
  str_truthy (in_stock inp) = true ∧ in_analyze inp = true.
Proof. unfold single_requested. apply andb_true_iff. Qed.

Lemma handle_stock_comparison_idle inp w :
  comparison_requested inp = false →
  handle_stock_comparison inp w = (Ok tt, w).
Proof.
  unfold comparison_requested, handle_stock_comparison. intros Hidle.
  destruct (str_truthy (in_stock1 inp) && str_truthy (in_stock2 inp));
    [cbn [andb] in Hidle; now rewrite Hidle | reflexivity].
Qed.

Lemma handle_single_stock_idle inp w :
  single_requested inp = false →
  handle_single_stock inp w = (Ok tt, w).
Proof.
  unfold single_requested, handle_single_stock. intros Hidle.
  destruct (str_truthy (in_stock inp));
    [cbn [andb] in Hidle; now rewrite Hidle | reflexivity].
Qed.

Lemma handle_stock_comparison_answer inp w h answer :
  session_state w !! "assistant" = Some (VAssistant h) →
  comparison_requested inp = true →
  Assistant_run (log w) h
    (generate_query (in_stock1 inp) (in_stock2 inp) (in_analysis_type inp)) false
  = inr answer →
  handle_stock_comparison inp w
  = (Ok tt,
     {| session_state := session_state w;
        log := log w
               ++ [EvAssistantRun h
                     (generate_query (in_stock1 inp) (in_stock2 inp)
                        (in_analysis_type inp)) false;
                   EvMarkdown answer] |}).
Proof.
  intros Hhandle Hreq Hanswer.
  apply comparison_requested_true in Hreq as [Hsym Hbutton].
  unfold handle_stock_comparison, mbind, M_bind, bind, get_attr.
  rewrite Hsym, Hbutton, Hhandle. cbn [call_run]. rewrite Hanswer.
  unfold emit. cbn [session_state log]. now rewrite <- app_assoc.
Qed.

Lemma handle_single_stock_answer inp w h answer :
  session_state w !! "assistant" = Some (VAssistant h) →
  single_requested inp = true →
  Assistant_run (log w) h (single_stock_query (in_stock inp) (in_metrics inp)) false
  = inr answer →
  handle_single_stock inp w
  = (Ok tt,
     {| session_state := session_state w;
        log := log w
               ++ [EvAssistantRun h
                     (single_stock_query (in_stock inp) (in_metrics inp)) false;
                   EvMarkdown answer] |}).
Proof.
  intros Hhandle Hreq Hanswer.
  apply single_requested_true in Hreq as [Hsym Hbutton].
  unfold handle_single_stock, mbind, M_bind, bind, get_attr.
  rewrite Hsym, Hbutton, Hhandle. cbn [call_run]. rewrite Hanswer.
  unfold emit. cbn [session_state log]. now rewrite <- app_assoc.
Qed.


(** X7: when both tabs are requested in one execution and the assistant
    answers, the comparison prompt is run first and its answer rendered,
    then the single stock prompt is run, on the same stored assistant and
    on the history that includes the first exchange, and its answer
    rendered; both runs are non-streaming, the answers are rendered as
    they are, and the session is left unchanged. *)
Theorem both_tabs_run_in_order inp w h answer1 answer2 :
  session_state w !! "assistant" = Some (VAssistant h) →
  comparison_requested inp = true →
  single_requested inp = true →
  Assistant_run (log w) h
    (generate_query (in_stock1 inp) (in_stock2 inp) (in_analysis_type inp)) false
  = inr answer1 →
  Assistant_run
    (log w ++ [EvAssistantRun h
                 (generate_query (in_stock1 inp) (in_stock2 inp) (in_analysis_type inp))
                 false;
               EvMarkdown answer1])
    h (single_stock_query (in_stock inp) (in_metrics inp)) false
  = inr answer2 →
  show_main_content inp w
  = (Ok tt,
     {| session_state := session_state w;
        log := log w
               ++ [EvAssistantRun h
                     (generate_query (in_stock1 inp) (in_stock2 inp)
                        (in_analysis_type inp)) false;
                   EvMarkdown answer1;
                   EvAssistantRun h
                     (single_stock_query (in_stock inp) (in_metrics inp)) false;
                   EvMarkdown answer2;
                   EvInfo "Market Insights feature coming soon!"] |}).
Proof.
  intros Hhandle Hcmp Hsingle Hanswer1 Hanswer2.
  unfold show_main_content, mbind, M_bind, bind.
  rewrite (handle_stock_comparison_answer _ _ _ _ Hhandle Hcmp Hanswer1).
  rewrite (handle_single_stock_answer inp
             {| session_state := session_state w;
                log := log w
                       ++ [EvAssistantRun h
                             (generate_query (in_stock1 inp) (in_stock2 inp)
                                (in_analysis_type inp)) false;
                           EvMarkdown answer1] |}
             h answer2 Hhandle Hsingle Hanswer2).
  unfold emit. cbn [session_state log]. now rewrite <- !app_assoc.
Qed.

(** X8: a failure of the assistant in the comparison tab ends the main
    content there: whatever the single stock tab asks for, its prompt is
    never run, and neither an answer nor the note of the third tab is
    shown. *)
Theorem comparison_failure_skips_the_rest inp w h f :
  session_state w !! "assistant" = Some (VAssistant h) →
  comparison_requested inp = true →
  Assistant_run (log w) h
    (generate_query (in_stock1 inp) (in_stock2 inp) (in_analysis_type inp)) false
  = inl f →
  show_main_content inp w
  = (Raise (RemoteFailure f),
     {| session_state := session_state w;
        log := log w
               ++ [EvAssistantRun h
                     (generate_query (in_stock1 inp) (in_stock2 inp)
                        (in_analysis_type inp)) false] |}).
Proof.
  intros Hhandle Hreq Hfails.
  apply comparison_requested_true in Hreq as [Hsym Hbutton].
  unfold show_main_content, handle_stock_comparison, mbind, M_bind, bind, get_attr.
  rewrite Hsym, Hbutton, Hhandle. cbn [call_run]. now rewrite Hfails.
Qed.

(** X9: with the comparison tab idle, a successful single stock analysis
    sends exactly the prompt built from the symbol and the metrics to the
    stored assistant, once and non-streaming, renders the answer as it
    is, then shows the note of the third tab. *)
Theorem single_stock_analysis_rendered inp w h answer :
  session_state w !! "assistant" = Some (VAssistant h) →
  comparison_requested inp = false →
  single_requested inp = true →
  Assistant_run (log w) h (single_stock_query (in_stock inp) (in_metrics inp)) false
  = inr answer →
  show_main_content inp w
  = (Ok tt,
     {| session_state := session_state w;
        log := log w
               ++ [EvAssistantRun h
                     (single_stock_query (in_stock inp) (in_metrics inp)) false;
                   EvMarkdown answer;
                   EvInfo "Market Insights feature coming soon!"] |}).
Proof.
  intros Hhandle Hcmp Hsingle Hanswer.
  unfold show_main_content, mbind, M_bind, bind.
  rewrite (handle_stock_comparison_idle _ _ Hcmp).
  rewrite (handle_single_stock_answer _ _ _ _ Hhandle Hsingle Hanswer).
  unfold emit. cbn [session_state log]. now rewrite <- !app_assoc.
Qed.

End Tabs.

(** ** Whole executions of the script *)

Section Executions.

Context {Handle Failure : Type} {remote : Collaborator Handle Failure}.

Implicit Types (w : world Handle) (s : gmap string (value Handle)).

(** A tab on a session that holds an assistant returns, or raises what the
    assistant raised. *)
Lemma handle_stock_comparison_outcome inp w h :
  session_state w !! "assistant" = Some (VAssistant h) →
  (handle_stock_comparison inp w).1 = Ok tt
  ∨ ∃ f, (handle_stock_comparison inp w).1 = Raise (RemoteFailure f).
Proof.
  intros Hhandle.
  destruct (comparison_requested inp) eqn:Hreq.
  - destruct (Assistant_run (log w) h
                (generate_query (in_stock1 inp) (in_stock2 inp) (in_analysis_type inp))
                false) as [f|answer] eqn:Hrun.
    + right. exists f.
      apply comparison_requested_true in Hreq as [Hsym Hbutton].
      unfold handle_stock_comparison, mbind, M_bind, bind, get_attr.
      rewrite Hsym, Hbutton, Hhandle. cbn [call_run]. now rewrite Hrun.
    + left. now rewrite (handle_stock_comparison_answer _ _ _ _ Hhandle Hreq Hrun).
  - left. now rewrite (handle_stock_comparison_idle _ _ Hreq).
Qed.

Lemma handle_single_stock_outcome inp w h :
  session_state w !! "assistant" = Some (VAssistant h) →
  (handle_single_stock inp w).1 = Ok tt
  ∨ ∃ f, (handle_single_stock inp w).1 = Raise (RemoteFailure f).
Proof.
  intros Hhandle.
  destruct (single_requested inp) eqn:Hreq.
  - destruct (Assistant_run (log w) h
                (single_stock_query (in_stock inp) (in_metrics inp)) false)
      as [f|answer] eqn:Hrun.
    + right. exists f.
      apply single_requested_true in Hreq as [Hsym Hbutton].
      unfold handle_single_stock, mbind, M_bind, bind, get_attr.
      rewrite Hsym, Hbutton, Hhandle. cbn [call_run]. now rewrite Hrun.
    + left. now rewrite (handle_single_stock_answer _ _ _ _ Hhandle Hreq Hrun).
  - left. now rewrite (handle_single_stock_idle _ _ Hreq).
Qed.

Lemma show_main_content_outcome inp w h :
  session_state w !! "assistant" = Some (VAssistant h) →
  (show_main_content inp w).1 = Ok tt
  ∨ ∃ f, (show_main_content inp w).1 = Raise (RemoteFailure f).
Proof.
  intros Hhandle.
  destruct (handle_stock_comparison_runs_on (session_state w) inp w eq_refl)
    as (new1 & Hs1 & _).
  pose proof (handle_stock_comparison_outcome inp w h Hhandle) as Hout1.
  unfold show_main_content, mbind, M_bind, bind.
  destruct (handle_stock_comparison inp w) as [r1 w1]. cbn [fst snd] in *.
  destruct Hout1 as [->|[f ->]]; [|right; exists f; reflexivity].
  rewrite <- Hs1 in Hhandle.
  pose proof (handle_single_stock_outcome inp w1 h Hhandle) as Hout2.
  destruct (handle_single_stock inp w1) as [r2 w2]. cbn [fst snd] in *.
  destruct Hout2 as [->|[f ->]]; [left; reflexivity | right; exists f; reflexivity].
Qed.

(** X10: in every state that the application reaches, an execution of the
    script either completes or stops on a failure raised by the remote
    assistant. It never raises an [AttributeError]: both attributes are
    always found, and [run] is never looked up on [None]. The session it
    leaves is initialised and satisfies the invariant. *)
Theorem script_raises_only_remote_failures inp w :
  reachable w →
  ((main inp w).1 = Ok tt ∨ ∃ f, (main inp w).1 = Raise (RemoteFailure f))
  ∧ initialised (session_state (main inp w).2)
  ∧ handle_invariant (session_state (main inp w).2).
Proof.
  intros Hreach.
  destruct (init_establishes (Failure := Failure) w (reachable_session w Hreach))
    as (w0 & Hinit & _ & Hinit0 & Hinv0).
  assert (Hmain : main inp w = run inp w0).
  { unfold main. unfold mbind at 1. unfold M_bind, bind. now rewrite Hinit. }
  rewrite Hmain. clear Hmain.
  destruct (run_gated inp w0 Hinit0 Hinv0) as (new & _ & Hinit' & Hinv' & _).
  split; [|split; assumption].
  destruct (show_sidebar_form_spec inp w0 Hinit0 Hinv0)
    as (w1 & new1 & Hform & _ & _ & [[b Hflag] Hassistant] & Hinv1).
  assert (Hrun : run inp w0
                 = (if b then show_main_content inp
                    else emit (EvWarning "Please enter your OpenAI API key in the sidebar to begin."))
                     w1).
  { unfold run, mbind, M_bind, bind. rewrite Hform.
    unfold get_attr. rewrite Hflag. reflexivity. }
  rewrite Hrun. destruct b.
  - destruct (Hinv1 Hflag) as [h Hh]. exact (show_main_content_outcome inp w1 h Hh).
  - left. reflexivity.
Qed.

(** X11: when a key is submitted and the constructor rejects it, the
    execution shows the error of the form and then the warning in place
    of the tabs, whatever the tab widgets hold and even if the session was
    verified before: a failed verification locks the analysis again. It
    changes nothing in the session but the flag. *)
Theorem rejected_key_locks_the_tabs inp w f :
  initialised (session_state w) →
  in_submitted inp = true →
  str_truthy (in_api_key inp) = true →
  Assistant_new (log w) (assistant_config (in_api_key inp)) = inl f →
  main inp w
  = (Ok tt,
     {| session_state := <["api_key_verified" := VBool false]> (session_state w);
        log := log w
               ++ [EvAssistantNew (assistant_config (in_api_key inp));
                   EvError "Invalid API key. Please check and try again.";
                   EvWarning "Please enter your OpenAI API key in the sidebar to begin."] |}).
Proof.
  intros Hinit Hsubmitted Hkey Hnew.
  unfold main. unfold mbind at 1. unfold M_bind, bind. rewrite (init_noop w Hinit).
  unfold run, show_sidebar_form, mbind, M_bind, bind.
  rewrite Hsubmitted, Hkey, (verify_api_key_failure _ _ _ Hnew).
  unfold emit, get_attr, mret, M_ret, ret. cbn [session_state log].
  rewrite lookup_insert_eq. cbn [truthy session_state log].
  rewrite lookup_insert_eq. cbn [truthy session_state log].
  now rewrite <- !app_assoc.
Qed.

End Executions.

(** ** The prompts *)

Lemma prefix_append (needle rest : string) :
  String.prefix needle (needle +:+ rest) = true.
Proof.
  apply String.prefix_correct.
  induction needle as [|ch needle IH].
  - now destruct rest.
  - rewrite append_String. cbn [String.length String.substring]. now rewrite IH.
Qed.

Lemma contains_here (needle rest : string) :
  contains needle (needle +:+ rest) = true.
Proof.
  destruct (needle +:+ rest) eqn:Happ; cbn [contains];
    rewrite <- Happ, prefix_append; reflexivity.
Qed.

Lemma contains_append_l (needle before hay : string) :
  contains needle hay = true → contains needle (before +:+ hay) = true.
Proof.
  intros Hhay. induction before as [|ch before IH]; [exact Hhay|].
  rewrite append_String. cbn [contains]. rewrite IH. apply orb_true_r.
Qed.

(** The templates of [generate_query], kind by kind. *)
Lemma generate_query_kind (stock1 stock2 : string) (k : AnalysisKind) :
  generate_query stock1 stock2 (kind_label k)
  = match k with
    | FullComparison =>
        "Provide a comprehensive comparison between " +:+ stock1
          +:+ " and " +:+ stock2
          +:+ " including price trends, fundamentals, and market sentiment."
    | PriceAnalysis =>
        "Compare price performance and technical indicators for " +:+ stock1
          +:+ " and " +:+ stock2 +:+ "."
    | Fundamentals =>
        "Compare key fundamental metrics and financial health of " +:+ stock1
          +:+ " and " +:+ stock2 +:+ "."
    | News =>
        "Compare recent news and market sentiment for " +:+ stock1
          +:+ " and " +:+ stock2 +:+ "."
    end.
Proof.
  unfold generate_query. cbv zeta.
  destruct k; unfold queries; cbn [kind_label];
    rewrite ?(lookup_insert_ne _ "News") by discriminate;
    rewrite ?(lookup_insert_ne _ "Fundamentals") by discriminate;
    rewrite ?(lookup_insert_ne _ "Price Analysis") by discriminate;
    rewrite lookup_insert_eq; reflexivity.
Qed.

Lemma analysis_type_cases (analysis_type : string) :
  (∃ k, analysis_type = kind_label k) ∨ analysis_type ∉ analysis_types.
Proof.
  destruct (decide (analysis_type ∈ analysis_types)) as [Hin|Hout]; [left | now right].
  unfold analysis_types in Hin. rewrite !elem_of_cons in Hin.
  destruct Hin as [->|[->|[->|[->|Hnil]]]];
    [now exists FullComparison | now exists PriceAnalysis
    | now exists Fundamentals | now exists News
    | now apply elem_of_nil in Hnil].
Qed.

(** X12: whatever the analysis type, known or not, the comparison prompt
    mentions both symbols as they were typed. *)
Theorem generate_query_mentions_both_symbols (stock1 stock2 analysis_type : string) :
  contains stock1 (generate_query stock1 stock2 analysis_type) = true
  ∧ contains stock2 (generate_query stock1 stock2 analysis_type) = true.
Proof.
  assert (Hkind : ∃ k, generate_query stock1 stock2 analysis_type
                       = generate_query stock1 stock2 (kind_label k)).
  { destruct (analysis_type_cases analysis_type) as [[k ->]|Hother]; [now exists k|].
    exists FullComparison. unfold generate_query. cbv zeta.
    rewrite (queries_lookup_other _ _ _ Hother). cbn [kind_label].
    rewrite queries_lookup_full. cbn [default].
    unfold lookup_total, map_lookup_total. now rewrite queries_lookup_full. }
  destruct Hkind as [k ->]. rewrite generate_query_kind.
  destruct k; split;
    repeat first [ apply contains_here
                 | apply contains_append_l ].
Qed.

(** X13: two different analysis kinds never give the same prompt, whatever
    the symbols are. *)
Theorem generate_query_kinds_differ (stock1 stock2 : string) (k1 k2 : AnalysisKind) :
  k1 ≠ k2 →
  generate_query stock1 stock2 (kind_label k1)
  ≠ generate_query stock1 stock2 (kind_label k2).
Proof.
  intros Hne Heq. rewrite !generate_query_kind in Heq.
  destruct k1, k2; try congruence; vm_compute in Heq; discriminate Heq.
Qed.

Lemma metric_option_cases (m : string) :
  m ∈ metric_options →
  m = "Price Trends" ∨ m = "Analyst Recommendations"
  ∨ m = "Company Info" ∨ m = "Recent News".
Proof.
  unfold metric_options. rewrite !elem_of_cons.
  intros [->|[->|[->|[->|Hnil]]]]; auto. now apply elem_of_nil in Hnil.
Qed.

(** No option of the multiselect is the beginning of another option, so a
    text that starts with an option starts with one option only. *)
Lemma metric_option_head (m1 m2 rest1 rest2 : string) :
  m1 ∈ metric_options → m2 ∈ metric_options →
  m1 +:+ rest1 = m2 +:+ rest2 →
  m1 = m2 ∧ rest1 = rest2.
Proof.
  intros H1 H2 Heq.
  apply metric_option_cases in H1 as [-> | [-> | [-> | ->]]];
    apply metric_option_cases in H2 as [-> | [-> | [-> | ->]]];
    first [ split; [reflexivity | exact (inj (String.app _) _ _ Heq)]
          | exfalso; vm_compute in Heq; discriminate Heq ].
Qed.

Lemma join_cons (sep x : string) (xs : list string) :
  join sep (x :: xs) = x +:+ match xs with [] => "" | _ => sep +:+ join sep xs end.
Proof.
  destruct xs as [|y ys]; [|reflexivity].
  cbn [join]. induction x as [|ch x IH]; [reflexivity|].
  now rewrite append_String, <- IH.
Qed.

(** On options of the multiselect, the comma-joined text determines the
    list: which labels, how many, in which order. *)
Lemma join_metric_options_inj (ms1 ms2 : list string) :
  Forall (λ m, m ∈ metric_options) ms1 →
  Forall (λ m, m ∈ metric_options) ms2 →
  join ", " ms1 = join ", " ms2 →
  ms1 = ms2.
Proof.
  intros Hall1. revert ms2.
  induction Hall1 as [|m1 ms1 Hm1 Hall1 IH]; intros ms2 Hall2 Heq.
  - destruct Hall2 as [|m2 ms2 Hm2 Hall2]; [reflexivity|]. exfalso.
    rewrite join_cons in Heq. cbn [join] in Heq.
    apply metric_option_cases in Hm2 as [-> | [-> | [-> | ->]]];
      vm_compute in Heq; discriminate Heq.
  - destruct Hall2 as [|m2 ms2 Hm2 Hall2].
    + exfalso. rewrite join_cons in Heq. cbn [join] in Heq.
      apply metric_option_cases in Hm1 as [-> | [-> | [-> | ->]]];
        vm_compute in Heq; discriminate Heq.
    + rewrite !join_cons in Heq.
      apply (metric_option_head _ _ _ _ Hm1 Hm2) in Heq as [-> Hrest].
      f_equal. apply IH; [exact Hall2|].
      destruct Hall1 as [|a ms1 Ha Hall1], Hall2 as [|b ms2 Hb Hall2].
      * reflexivity.
      * exfalso. vm_compute in Hrest. discriminate Hrest.
      * exfalso. vm_compute in Hrest. discriminate Hrest.
      * exact (inj (String.app ", ") _ _ Hrest).
Qed.

(** X14: for metrics chosen among the options of the multiselect, the
    prompt of the single stock tab determines the selection: two
    selections that differ in their labels, in their number or only in
    their order give different prompts for the same symbol. *)
Theorem single_stock_query_determines_metrics (stock : string) (ms1 ms2 : list string) :
  Forall (λ m, m ∈ metric_options) ms1 →
  Forall (λ m, m ∈ metric_options) ms2 →
  single_stock_query stock ms1 = single_stock_query stock ms2 →
  ms1 = ms2.
Proof.
  intros Hall1 Hall2 Heq. unfold single_stock_query in Heq.
  apply (inj (String.app "Analyze ")) in Heq.
  apply (inj (String.app stock)) in Heq.
  apply (inj (String.app " focusing on ")) in Heq.
  now apply join_metric_options_inj.
Qed.

(** ** First visit, accepted key, and what the tabs leave alone *)

Section Visits.

Context {Handle Failure : Type} {remote : Collaborator Handle Failure}.

Implicit Types (w : world Handle) (s : gmap string (value Handle)).

(** X15: on the first execution of a session, without a submission of the
    key form, the script returns after setting up the two attributes
    ([api_key_verified] at [False], [assistant] at [None]) and showing the
    warning. Whatever the tab widgets would hold, the main content is not
    reached: no call to the collaborator is made, no answer is rendered,
    and the note of the third tab is not shown. *)
Theorem first_execution_sets_up_and_warns inp :
  in_submitted inp = false →
  (main inp fresh).1 = Ok tt
  ∧ session_state (main inp fresh).2
    = <["api_key_verified" := VBool false]> (<["assistant" := VNone]> ∅)
  ∧ calls_and_answers (log (main inp fresh).2) = []
  ∧ EvWarning "Please enter your OpenAI API key in the sidebar to begin."
    ∈ log (main inp fresh).2
  ∧ EvInfo "Market Insights feature coming soon!" ∉ log (main inp fresh).2.
Proof.
  intros Hsubmitted.
  assert (Hmain : main inp fresh
    = (Ok tt,
       {| session_state :=
            <["api_key_verified" := VBool false]> (<["assistant" := VNone]> ∅);
          log := [EvWarning "Please enter your OpenAI API key in the sidebar to begin."] |})).
  { unfold main. unfold mbind at 1. unfold M_bind, bind.
    rewrite init_session_union. unfold fresh. cbn [session_state log].
    rewrite (left_id_L ∅ (∪)).
    unfold run, show_sidebar_form, mbind, M_bind, bind, mret, M_ret, ret, get_attr, emit.
    rewrite Hsubmitted. cbn [session_state log].
    rewrite lookup_insert_eq. cbn [truthy session_state log].
    rewrite lookup_insert_eq. reflexivity. }
  rewrite Hmain. cbn [fst snd session_state log].
  split; [reflexivity|]. split; [reflexivity|]. split; [reflexivity|]. split.
  - apply list_elem_of_singleton. reflexivity.
  - intros Hin. apply list_elem_of_singleton in Hin. discriminate.
Qed.

(** X16: when a key is submitted and the constructor accepts it, the tabs
    are available in the same execution: with both tabs idle, the script
    stores the assistant, sets the flag, and shows the success message, the
    "Verified" status of the sidebar and the main content, in this
    order. *)
Theorem accepted_key_unlocks_the_tabs inp w h :
  initialised (session_state w) →
  in_submitted inp = true →
  str_truthy (in_api_key inp) = true →
  Assistant_new (log w) (assistant_config (in_api_key inp)) = inr h →
  comparison_requested inp = false →
  single_requested inp = false →
  main inp w
  = (Ok tt,
     {| session_state :=
          <["api_key_verified" := VBool true]>
            (<["assistant" := VAssistant h]> (session_state w));
        log := log w
               ++ [EvAssistantNew (assistant_config (in_api_key inp));
                   EvSuccess "API key verified successfully!";
                   EvSidebarSuccess "✅ API Key Status: Verified";
                   EvInfo "Market Insights feature coming soon!"] |}).
Proof.
  intros Hinit Hsubmitted Hkey Hnew Hcmp Hsingle.
  unfold main. unfold mbind at 1. unfold M_bind, bind. rewrite (init_noop w Hinit).
  unfold run, show_sidebar_form, show_main_content, mbind, M_bind, bind.
  rewrite Hsubmitted, Hkey, (verify_api_key_success _ _ _ Hnew).
  unfold emit, get_attr, mret, M_ret, ret. cbn [session_state log].
  rewrite lookup_insert_eq. cbn [truthy session_state log].
  rewrite lookup_insert_eq. cbn [truthy session_state log].
  rewrite (handle_stock_comparison_idle _ _ Hcmp), (handle_single_stock_idle _ _ Hsingle).
  cbn [session_state log]. now rewrite <- !app_assoc.
Qed.

(** X17: the tabs never write the session and never call the constructor,
    on any session and whatever the widgets hold; the only assistant they
    run is the one stored in the session. *)
Theorem tabs_leave_the_session_alone inp w :
  ∃ new,
    log (show_main_content inp w).2 = log w ++ new
    ∧ session_state (show_main_content inp w).2 = session_state w
    ∧ Forall (λ e, is_construction e = false) new
    ∧ ∀ h query stream, EvAssistantRun h query stream ∈ new →
        session_state w !! "assistant" = Some (VAssistant h).
Proof.
  destruct (show_main_content_runs_on (session_state w) inp w eq_refl)
    as (new & Hs & Hlog & Hev & _).
  exists new. split; [exact Hlog|]. split; [exact Hs|]. split.
  - eapply Forall_impl; [exact Hev|]. intros e He. now destruct e.
  - intros h query stream Hin. rewrite Forall_forall in Hev. exact (Hev _ Hin).
Qed.

End Visits.

(** ** The further properties on concrete executions *)


Lemma verify_success_stores_handle_witness :
  Assistant_new (Collaborator := demo_remote) (log unbound_world)
    (assistant_config "sk-demo") = inr 0
  ∧ (verify_api_key (remote := demo_remote) "sk-demo" unbound_world).1 = Ok true
  ∧ is_verified
      (session_state (verify_api_key (remote := demo_remote) "sk-demo" unbound_world).2)
  ∧ session_state (verify_api_key (remote := demo_remote) "sk-demo" unbound_world).2
      !! "assistant" = Some (VAssistant 0)
  ∧ ∀ name, name ≠ "api_key_verified" → name ≠ "assistant" →
      session_state (verify_api_key (remote := demo_remote) "sk-demo" unbound_world).2
        !! name = session_state unbound_world !! name.
Proof.
  split; [vm_compute; reflexivity|].
  apply (verify_success_stores_handle (remote := demo_remote) "sk-demo" unbound_world 0).
  vm_compute. reflexivity.
Defined.

Lemma session_kept_without_submission_witness :
  initialised (session_state verified_world)
  ∧ in_submitted (analyze_stock "FAIL" []) = false
  ∧ ∃ new,
      log (main (remote := demo_remote) (analyze_stock "FAIL" []) verified_world).2
      = log verified_world ++ new
      ∧ session_state
          (main (remote := demo_remote) (analyze_stock "FAIL" []) verified_world).2
        = session_state verified_world
      ∧ Forall (λ e, is_construction e = false) new.
Proof.
  assert (Hinit : initialised (session_state verified_world)).
  { split; [exists true | right; exists 0]; vm_compute; reflexivity. }
  split; [exact Hinit|]. split; [reflexivity|].
  exact (session_kept_without_submission (remote := demo_remote)
           (analyze_stock "FAIL" []) verified_world Hinit eq_refl).
Defined.


Lemma both_tabs_run_in_order_witness :
  session_state bound_world !! "assistant" = Some (VAssistant 7)
  ∧ comparison_requested both_tabs = true
  ∧ single_requested both_tabs = true
  ∧ show_main_content (remote := demo_remote) both_tabs bound_world
    = (Ok tt,
       {| session_state := session_state bound_world;
          log := log bound_world
                 ++ [EvAssistantRun 7
                       "Compare recent news and market sentiment for AAPL and MSFT." false;
                     EvMarkdown
                       "answer: Compare recent news and market sentiment for AAPL and MSFT.";
                     EvAssistantRun 7 "Analyze GOOGL focusing on " false;
                     EvMarkdown "answer: Analyze GOOGL focusing on ";
                     EvInfo "Market Insights feature coming soon!"] |}).
Proof.
  split; [vm_compute; reflexivity|]. split; [reflexivity|]. split; [reflexivity|].
  apply (both_tabs_run_in_order (remote := demo_remote) both_tabs bound_world 7
           "answer: Compare recent news and market sentiment for AAPL and MSFT."
           "answer: Analyze GOOGL focusing on ");
    vm_compute; reflexivity.
Defined.

Lemma comparison_failure_skips_the_rest_witness :
  session_state bound_world !! "assistant" = Some (VAssistant 7)
  ∧ comparison_requested both_tabs = true
  ∧ show_main_content (remote := offline_remote) both_tabs bound_world
    = (Raise (RemoteFailure "connection refused"),
       {| session_state := session_state bound_world;
          log := log bound_world
                 ++ [EvAssistantRun 7
                       "Compare recent news and market sentiment for AAPL and MSFT."
                       false] |}).
Proof.
  split; [vm_compute; reflexivity|]. split; [reflexivity|].
  apply (comparison_failure_skips_the_rest (remote := offline_remote) both_tabs
           bound_world 7 "connection refused");
    vm_compute; reflexivity.
Defined.

Lemma single_stock_analysis_rendered_witness :
  session_state bound_world !! "assistant" = Some (VAssistant 7)
  ∧ comparison_requested (analyze_stock "GOOGL" ["Recent News"; "Price Trends"]) = false
  ∧ single_requested (analyze_stock "GOOGL" ["Recent News"; "Price Trends"]) = true
  ∧ show_main_content (remote := demo_remote)
      (analyze_stock "GOOGL" ["Recent News"; "Price Trends"]) bound_world
    = (Ok tt,
       {| session_state := session_state bound_world;
          log := log bound_world
                 ++ [EvAssistantRun 7
                       "Analyze GOOGL focusing on Recent News, Price Trends" false;
                     EvMarkdown
                       "answer: Analyze GOOGL focusing on Recent News, Price Trends";
                     EvInfo "Market Insights feature coming soon!"] |}).
Proof.
  split; [vm_compute; reflexivity|]. split; [reflexivity|]. split; [reflexivity|].
  apply (single_stock_analysis_rendered (remote := demo_remote)
           (analyze_stock "GOOGL" ["Recent News"; "Price Trends"]) bound_world 7
           "answer: Analyze GOOGL focusing on Recent News, Price Trends");
    vm_compute; reflexivity.
Defined.

Lemma script_raises_only_remote_failures_witness :
  reachable (remote := demo_remote) verified_world
  ∧ ((main (remote := demo_remote) (analyze_stock "FAIL" []) verified_world).1 = Ok tt
     ∨ ∃ f, (main (remote := demo_remote) (analyze_stock "FAIL" []) verified_world).1
            = Raise (RemoteFailure f))
  ∧ initialised
      (session_state
         (main (remote := demo_remote) (analyze_stock "FAIL" []) verified_world).2)
  ∧ handle_invariant
      (session_state
         (main (remote := demo_remote) (analyze_stock "FAIL" []) verified_world).2).
Proof.
  split.
  - apply reachable_rerun, reachable_fresh.
  - apply (script_raises_only_remote_failures (remote := demo_remote)
             (analyze_stock "FAIL" []) verified_world).
    apply reachable_rerun, reachable_fresh.
Defined.

Lemma rejected_key_locks_the_tabs_witness :
  initialised (session_state verified_world)
  ∧ in_submitted (submit_key "wrong-key") = true
  ∧ str_truthy (in_api_key (submit_key "wrong-key")) = true
  ∧ Assistant_new (Collaborator := demo_remote) (log verified_world)
      (assistant_config (in_api_key (submit_key "wrong-key"))) = inl "invalid api key"
  ∧ main (remote := demo_remote) (submit_key "wrong-key") verified_world
    = (Ok tt,
       {| session_state :=
            <["api_key_verified" := VBool false]> (session_state verified_world);
          log := log verified_world
                 ++ [EvAssistantNew (assistant_config "wrong-key");
                     EvError "Invalid API key. Please check and try again.";
                     EvWarning
                       "Please enter your OpenAI API key in the sidebar to begin."] |}).
Proof.
  assert (Hinit : initialised (session_state verified_world)).
  { split; [exists true | right; exists 0]; vm_compute; reflexivity. }
  split; [exact Hinit|]. split; [reflexivity|]. split; [reflexivity|].
  split; [vm_compute; reflexivity|].
  apply (rejected_key_locks_the_tabs (remote := demo_remote) (submit_key "wrong-key")
           verified_world "invalid api key" Hinit); vm_compute; reflexivity.
Defined.

Lemma generate_query_kinds_differ_witness :
  PriceAnalysis ≠ Fundamentals
  ∧ generate_query "AAPL" "MSFT" (kind_label PriceAnalysis)
    ≠ generate_query "AAPL" "MSFT" (kind_label Fundamentals).
Proof.
  split; [discriminate|].
  apply (generate_query_kinds_differ "AAPL" "MSFT" PriceAnalysis Fundamentals).
  discriminate.
Defined.

Lemma single_stock_query_determines_metrics_witness :
  Forall (λ m, m ∈ metric_options) ["Recent News"; "Price Trends"]
  ∧ single_stock_query "GOOGL" ["Recent News"; "Price Trends"]
    = single_stock_query "GOOGL" ["Recent News"; "Price Trends"]
  ∧ ["Recent News"; "Price Trends"] = ["Recent News"; "Price Trends"].
Proof.
  assert (Hall : Forall (λ m, m ∈ metric_options) ["Recent News"; "Price Trends"]).
  { unfold metric_options. repeat constructor. }
  split; [exact Hall|]. split; [reflexivity|].
  exact (single_stock_query_determines_metrics "GOOGL" _ _ Hall Hall eq_refl).
Defined.

Lemma first_execution_sets_up_and_warns_witness :
  in_submitted (compare_stocks "AAPL" "MSFT" "News") = false
  ∧ (main (remote := demo_remote) (compare_stocks "AAPL" "MSFT" "News") fresh).1 = Ok tt
  ∧ session_state
      (main (remote := demo_remote) (compare_stocks "AAPL" "MSFT" "News") fresh).2
    = <["api_key_verified" := VBool false]> (<["assistant" := VNone]> ∅)
  ∧ calls_and_answers
      (log (main (remote := demo_remote) (compare_stocks "AAPL" "MSFT" "News") fresh).2)
    = []
  ∧ EvWarning "Please enter your OpenAI API key in the sidebar to begin."
    ∈ log (main (remote := demo_remote) (compare_stocks "AAPL" "MSFT" "News") fresh).2
  ∧ EvInfo "Market Insights feature coming soon!"
    ∉ log (main (remote := demo_remote) (compare_stocks "AAPL" "MSFT" "News") fresh).2.
Proof.
  split; [reflexivity|].
  exact (first_execution_sets_up_and_warns (remote := demo_remote)
           (compare_stocks "AAPL" "MSFT" "News") eq_refl).
Defined.

Lemma accepted_key_unlocks_the_tabs_witness :
  initialised (session_state verified_world)
  ∧ in_submitted (submit_key "sk-other") = true
  ∧ str_truthy (in_api_key (submit_key "sk-other")) = true
  ∧ Assistant_new (Collaborator := demo_remote) (log verified_world)
      (assistant_config (in_api_key (submit_key "sk-other"))) = inr 4
  ∧ comparison_requested (submit_key "sk-other") = false
  ∧ single_requested (submit_key "sk-other") = false
  ∧ main (remote := demo_remote) (submit_key "sk-other") verified_world
    = (Ok tt,
       {| session_state :=
            <["api_key_verified" := VBool true]>
              (<["assistant" := VAssistant 4]> (session_state verified_world));
          log := log verified_world
                 ++ [EvAssistantNew (assistant_config "sk-other");
                     EvSuccess "API key verified successfully!";
                     EvSidebarSuccess "✅ API Key Status: Verified";
                     EvInfo "Market Insights feature coming soon!"] |}).
Proof.
  assert (Hinit : initialised (session_state verified_world)).
  { split; [exists true | right; exists 0]; vm_compute; reflexivity. }
  split; [exact Hinit|]. split; [reflexivity|]. split; [reflexivity|].
  split; [vm_compute; reflexivity|]. split; [reflexivity|]. split; [reflexivity|].
  apply (accepted_key_unlocks_the_tabs (remote := demo_remote) (submit_key "sk-other")
           verified_world 4 Hinit); vm_compute; reflexivity.
Defined.
